(** * calculator-server: the MCP dispatch engine and its three transports

    A shallow embedding of [pkg/mcp] (server, HTTP transport, streamable
    HTTP transport) and of [internal/types], with the properties of the
    design document stated and settled against it.

    Conventions.
    - Go [int], [time.Duration] and timestamps are [Z]; a [Duration] is a
      64-bit count of nanoseconds and [Time.Sub] saturates, as in package
      [time].
    - Go [interface{}] values that travel through the dispatcher are JSON
      shaped; they are the inductive [value].  A handler's result may also
      be a value the JSON encoder rejects ([handler_result]).
    - [map[string]T] with a lookup-only use is a [gmap string T]; a
      [map[string]interface{}] that is a JSON object is a key-sorted
      association list (so that it nests inside [value]).
    - An [http.ResponseWriter] is the record of what has been written to it;
      handlers are writer transformers.
    - The clock and the random source are explicit: a [World] is threaded
      through every function that reads them. *)

From Stdlib Require Import ZArith Ascii String List Bool.
From stdpp Require Import base option list gmap strings pretty.

Set Warnings "-register-all".

Open Scope string_scope.
Open Scope Z_scope.

(** ** Dynamic values ([interface{}]) *)

Inductive value : Type :=
| VNil
| VBool (b : bool)
| VNumber (lit : string)
| VString (s : string)
| VArray (items : list value)
| VMap (fields : list (string * value)).

(** [map[string]interface{}]; [None] is the nil map. *)
Definition gomap : Type := option (list (string * value)).

(** What a tool handler returns as its [interface{}] result: a JSON-shaped
    value, or a value that [json.Marshal] rejects (a NaN or infinite float,
    a channel, a function), named by how the encoder reports it. *)
Inductive handler_result : Type :=
| Encodable (v : value)
| Unsupported (what : string).

(** Assignment [m[k] = v] on a key-sorted association list. *)
Fixpoint map_set (k : string) (v : value) (m : list (string * value))
  : list (string * value) :=
  match m with
  | [] => [(k, v)]
  | (k', v') :: m' =>
      if String.eqb k k' then (k, v) :: m'
      else if String.ltb k k' then (k, v) :: (k', v') :: m'
      else (k', v') :: map_set k v m'
  end.

(** A map literal [map[string]interface{}{k1: v1, ...}]. *)
Definition map_of (l : list (string * value)) : list (string * value) :=
  fold_left (fun m kv => map_set (fst kv) (snd kv) m) l [].

(** The comma-ok lookup [v, exists := m[k]]. *)
Fixpoint map_get (k : string) (m : list (string * value)) : option value :=
  match m with
  | [] => None
  | (k', v) :: m' => if String.eqb k k' then Some v else map_get k m'
  end.

(** The double quote, and JSON text written with ['] where JSON has the
    double quote. *)
Definition dquote : ascii := "034"%char.
Definition dq : string := String dquote EmptyString.

Fixpoint js (s : string) : string :=
  match s with
  | String c r => String (if Ascii.eqb c "'" then dquote else c) (js r)
  | EmptyString => EmptyString
  end.

(** [strings.Contains]. *)
Fixpoint Contains (s substr : string) : bool :=
  String.prefix substr s
  || match s with
     | EmptyString => false
     | String _ s' => Contains s' substr
     end.

(** ** Package [internal/types] *)
Module types.

Record MCPRequest : Type := {
  JSONRPC : string;
  ID : value;
  Method : string;
  Params : string  (* json.RawMessage *)
}.

Record MCPError : Type := {
  Code : Z;
  Message : string;
  Data : value
}.

Record Tool : Type := {
  Name : string;
  Description : string;
  InputSchema : gomap
}.

Record ListToolsResult : Type := { Tools : list Tool }.

Record CallToolParams : Type := {
  ToolName : string;  (* field Name, json "name" *)
  Arguments : gomap
}.

Record ContentBlock : Type := {
  Type_ : string;  (* field Type *)
  Text : string
}.

Record CallToolResult : Type := { Content : list ContentBlock }.

(** The dynamic types the dispatcher stores in [MCPResponse.Result]. *)
Inductive result : Type :=
| ResultMap (m : list (string * value))
| ResultListTools (r : ListToolsResult)
| ResultCallTool (r : CallToolResult).

Record MCPResponse : Type := {
  RespJSONRPC : string;      (* field JSONRPC *)
  RespID : value;            (* field ID *)
  Result : option result;    (* nil interface = None *)
  Error : option MCPError    (* nil pointer = None *)
}.

(** Modelled from the spec: the declaration of [types.Session] is not
    among the sources; the fields are those the transport reads and
    writes ([ID], [CreatedAt], [LastSeen], [Active]), the spec's
    [{id, createdAt, lastSeenAt, active}]. *)
Record Session : Type := {
  SessionID : string;
  CreatedAt : Z;
  LastSeen : Z;
  Active : bool
}.

(** Zero values. *)
Definition MCPRequest_zero : MCPRequest :=
  {| JSONRPC := ""; ID := VNil; Method := ""; Params := "" |}.
Definition CallToolParams_zero : CallToolParams :=
  {| ToolName := ""; Arguments := None |}.
Definition Tool_zero : Tool :=
  {| Name := ""; Description := ""; InputSchema := None |}.

End types.

(** ** Package [encoding/json]

    A reference model of the part of the library the server calls: the
    JSON grammar, decoding into the three targets the code uses
    ([types.MCPRequest], [types.CallToolParams], [map[string]interface{}])
    and encoding of responses.  Numbers are kept by their literal.  The
    propositions below depend on the decoders only through their results
    (success or error). *)
Module json.

Definition is_ws (c : ascii) : bool :=
  Ascii.eqb c " " || Ascii.eqb c "009" || Ascii.eqb c "010" || Ascii.eqb c "013".

Fixpoint skip_ws (s : string) : string :=
  match s with
  | String c r => if is_ws c then skip_ws r else s
  | EmptyString => s
  end.

Definition is_digit (c : ascii) : bool :=
  let n := N_of_ascii c in (48 <=? n)%N && (n <=? 57)%N.

Fixpoint span_digits (s : string) : string * string :=
  match s with
  | String c r =>
      if is_digit c then let '(d, r') := span_digits r in (String c d, r')
      else (EmptyString, s)
  | EmptyString => (EmptyString, s)
  end.

Definition hex_val (c : ascii) : option N :=
  let n := N_of_ascii c in
  if (48 <=? n)%N && (n <=? 57)%N then Some (n - 48)%N
  else if (97 <=? n)%N && (n <=? 102)%N then Some (n - 87)%N
  else if (65 <=? n)%N && (n <=? 70)%N then Some (n - 55)%N
  else None.

(** UTF-8 of a code point of the basic plane; a lone surrogate becomes
    U+FFFD, as the decoder does. *)
Definition utf8 (cp : N) : string :=
  let b (n : N) := ascii_of_N n in
  if (cp <? 128)%N then String (b cp) EmptyString
  else if (cp <? 2048)%N then
    String (b (192 + cp / 64)%N) (String (b (128 + cp mod 64)%N) EmptyString)
  else
    let cp := if (55296 <=? cp)%N && (cp <=? 57343)%N then 65533%N else cp in
    String (b (224 + cp / 4096)%N)
      (String (b (128 + (cp / 64) mod 64)%N)
         (String (b (128 + cp mod 64)%N) EmptyString)).

Definition unescape (e : ascii) : option ascii :=
  if Ascii.eqb e dquote then Some dquote
  else if Ascii.eqb e "\" then Some "\"%char
  else if Ascii.eqb e "/" then Some "/"%char
  else if Ascii.eqb e "b" then Some "008"%char
  else if Ascii.eqb e "f" then Some "012"%char
  else if Ascii.eqb e "n" then Some "010"%char
  else if Ascii.eqb e "r" then Some "013"%char
  else if Ascii.eqb e "t" then Some "009"%char
  else None.

Definition hex4 (a b c d : ascii) : option N :=
  match hex_val a, hex_val b, hex_val c, hex_val d with
  | Some x, Some y, Some z, Some w => Some (((x * 16 + y) * 16 + z) * 16 + w)%N
  | _, _, _, _ => None
  end.

Definition prepend (p : string) (k : option (string * string))
  : option (string * string) :=
  match k with
  | Some (t, r) => Some (p ++ t, r)
  | None => None
  end.

(** The characters of a string literal after its opening quote, and the
    input that follows the closing quote. *)
Fixpoint parse_string (s : string) : option (string * string) :=
  match s with
  | EmptyString => None
  | String c r =>
      if Ascii.eqb c dquote then Some (EmptyString, r)
      else if Ascii.eqb c "\" then
        match r with
        | String e r1 =>
            if Ascii.eqb e "u" then
              match r1 with
              | String h1 (String h2 (String h3 (String h4 r2))) =>
                  match hex4 h1 h2 h3 h4 with
                  | Some cp => prepend (utf8 cp) (parse_string r2)
                  | None => None
                  end
              | _ => None
              end
            else
              match unescape e with
              | Some ch => prepend (String ch EmptyString) (parse_string r1)
              | None => None
              end
        | EmptyString => None
        end
      else if (N_of_ascii c <? 32)%N then None
      else prepend (String c EmptyString) (parse_string r)
  end.

(** A number literal: [-]? int frac? exp?. *)
Definition parse_number (s : string) : option (string * string) :=
  let '(sign, s1) :=
    match s with
    | String c r => if Ascii.eqb c "-" then ("-", r) else ("", s)
    | EmptyString => ("", s)
    end in
  let '(int, s2) := span_digits s1 in
  let int_ok :=
    match int with
    | EmptyString => false
    | String c EmptyString => true
    | String c _ => negb (Ascii.eqb c "0")
    end in
  if negb int_ok then None
  else
    let frac :=
      match s2 with
      | String c r =>
          if Ascii.eqb c "." then
            let '(d, r') := span_digits r in
            match d with
            | EmptyString => None
            | _ => Some ("." ++ d, r')
            end
          else Some ("", s2)
      | EmptyString => Some ("", s2)
      end in
    match frac with
    | None => None
    | Some (f, s3) =>
        let digits_after (mark : string) (r : string) :=
          let '(d, r') := span_digits r in
          match d with
          | EmptyString => None
          | _ => Some (sign ++ int ++ f ++ mark ++ d, r')
          end in
        match s3 with
        | String c r =>
            if Ascii.eqb c "e" || Ascii.eqb c "E" then
              match r with
              | String g r' =>
                  if Ascii.eqb g "+" || Ascii.eqb g "-"
                  then digits_after (String c (String g EmptyString)) r'
                  else digits_after (String c EmptyString) r
              | EmptyString => None
              end
            else Some (sign ++ int ++ f, s3)
        | EmptyString => Some (sign ++ int ++ f, s3)
        end
    end.

Definition drop_prefix (p s : string) : option string :=
  if String.prefix p s
  then Some (substring (String.length p) (String.length s - String.length p)%nat s)
  else None.

(** One member of an object, with the raw text of its value (what a
    [json.RawMessage] field receives). *)
Definition member : Type := string * string * value.

Definition members_map (ms : list member) : list (string * value) :=
  fold_left (fun m kv => map_set (fst (fst kv)) (snd kv) m) ms [].

(** The grammar.  Every recursive call spends one unit of [fuel]; a text
    of length [n] never needs more than [2 * n + 2]. *)
Fixpoint parse_value (fuel : nat) (s : string) : option (value * string) :=
  match fuel with
  | O => None
  | S fuel =>
      match skip_ws s with
      | EmptyString => None
      | String c r as s0 =>
          if Ascii.eqb c "n" then
            match drop_prefix "ull" r with Some r' => Some (VNil, r') | None => None end
          else if Ascii.eqb c "t" then
            match drop_prefix "rue" r with Some r' => Some (VBool true, r') | None => None end
          else if Ascii.eqb c "f" then
            match drop_prefix "alse" r with Some r' => Some (VBool false, r') | None => None end
          else if Ascii.eqb c dquote then
            match parse_string r with Some (t, r') => Some (VString t, r') | None => None end
          else if Ascii.eqb c "[" then
            match skip_ws r with
            | String c' r' =>
                if Ascii.eqb c' "]" then Some (VArray [], r')
                else
                  match parse_elems fuel r with
                  | Some (vs, r'') => Some (VArray vs, r'')
                  | None => None
                  end
            | EmptyString => None
            end
          else if Ascii.eqb c "{" then
            match skip_ws r with
            | String c' r' =>
                if Ascii.eqb c' "}" then Some (VMap [], r')
                else
                  match parse_members fuel r with
                  | Some (ms, r'') => Some (VMap (members_map ms), r'')
                  | None => None
                  end
            | EmptyString => None
            end
          else
            match parse_number s0 with
            | Some (lit, r') => Some (VNumber lit, r')
            | None => None
            end
      end
  end
with parse_elems (fuel : nat) (s : string) : option (list value * string) :=
  match fuel with
  | O => None
  | S fuel =>
      match parse_value fuel s with
      | Some (v, r) =>
          match skip_ws r with
          | String c r' =>
              if Ascii.eqb c "," then
                match parse_elems fuel r' with
                | Some (vs, r'') => Some (v :: vs, r'')
                | None => None
                end
              else if Ascii.eqb c "]" then Some ([v], r')
              else None
          | EmptyString => None
          end
      | None => None
      end
  end
with parse_members (fuel : nat) (s : string) : option (list member * string) :=
  match fuel with
  | O => None
  | S fuel =>
      match skip_ws s with
      | String q r =>
          if Ascii.eqb q dquote then
            match parse_string r with
            | Some (k, r1) =>
                match skip_ws r1 with
                | String c r2 =>
                    if Ascii.eqb c ":" then
                      let r2 := skip_ws r2 in
                      match parse_value fuel r2 with
                      | Some (v, r3) =>
                          let raw :=
                            substring 0 (String.length r2 - String.length r3)%nat r2 in
                          match skip_ws r3 with
                          | String c' r4 =>
                              if Ascii.eqb c' "," then
                                match parse_members fuel r4 with
                                | Some (ms, r5) => Some ((k, raw, v) :: ms, r5)
                                | None => None
                                end
                              else if Ascii.eqb c' "}" then Some ([(k, raw, v)], r4)
                              else None
                          | EmptyString => None
                          end
                      | None => None
                      end
                    else None
                | EmptyString => None
                end
            | None => None
            end
          else None
      | EmptyString => None
      end
  end.

Definition fuel_for (s : string) : nat := (2 * String.length s + 2)%nat.

(** The top-level value of a document, objects with their raw members. *)
Inductive document : Type :=
| DocNull
| DocObject (ms : list member)
| DocOther (v : value).

Definition parse_document (data : string) : option document :=
  let finish (d : document) (rest : string) :=
    match skip_ws rest with
    | EmptyString => Some d
    | String _ _ => None
    end in
  match skip_ws data with
  | EmptyString => None
  | String c r as s0 =>
      if Ascii.eqb c "{" then
        match skip_ws r with
        | String c' r' =>
            if Ascii.eqb c' "}" then finish (DocObject []) r'
            else
              match parse_members (fuel_for data) r with
              | Some (ms, r'') => finish (DocObject ms) r''
              | None => None
              end
        | EmptyString => None
        end
      else
        match parse_value (fuel_for data) s0 with
        | Some (VNil, r') => finish DocNull r'
        | Some (v, r') => finish (DocOther v) r'
        | None => None
        end
  end.

(** *** Decoding *)

(** A Go [error], by its message. *)
Definition error : Type := string.

Definition SyntaxError (data : string) : error :=
  match skip_ws data with
  | EmptyString => "unexpected end of JSON input"
  | String _ _ => "invalid character in JSON input"
  end.

Definition kind_of (v : value) : string :=
  match v with
  | VNil => "null"
  | VBool _ => "bool"
  | VNumber _ => "number"
  | VString _ => "string"
  | VArray _ => "array"
  | VMap _ => "object"
  end.

Definition UnmarshalTypeError (v : value) (target : string) : error :=
  "json: cannot unmarshal " ++ kind_of v ++ " into Go " ++ target.

Definition lower (c : ascii) : ascii :=
  let n := N_of_ascii c in
  if (65 <=? n)%N && (n <=? 90)%N then ascii_of_N (n + 32)%N else c.

Fixpoint fold_name (s : string) : string :=
  match s with
  | String c r => String (lower c) (fold_name r)
  | EmptyString => EmptyString
  end.

(** The decoder keeps the first type error and goes on. *)
Definition save_error (old : option error) (e : error) : option error :=
  match old with
  | Some _ => old
  | None => Some e
  end.

Definition finish {A : Type} (st : A * option error) : A + error :=
  match snd st with
  | Some e => inr e
  | None => inl (fst st)
  end.

Definition set_MCPRequest_field (st : types.MCPRequest * option error) (m : member)
  : types.MCPRequest * option error :=
  let '(req, err) := st in
  let '(k, raw, v) := m in
  let key := fold_name k in
  if String.eqb key "jsonrpc" then
    match v with
    | VString t =>
        ({| types.JSONRPC := t; types.ID := types.ID req;
            types.Method := types.Method req; types.Params := types.Params req |}, err)
    | VNil => st
    | _ => (req, save_error err
                   (UnmarshalTypeError v "struct field MCPRequest.jsonrpc of type string"))
    end
  else if String.eqb key "id" then
    ({| types.JSONRPC := types.JSONRPC req; types.ID := v;
        types.Method := types.Method req; types.Params := types.Params req |}, err)
  else if String.eqb key "method" then
    match v with
    | VString t =>
        ({| types.JSONRPC := types.JSONRPC req; types.ID := types.ID req;
            types.Method := t; types.Params := types.Params req |}, err)
    | VNil => st
    | _ => (req, save_error err
                   (UnmarshalTypeError v "struct field MCPRequest.method of type string"))
    end
  else if String.eqb key "params" then
    ({| types.JSONRPC := types.JSONRPC req; types.ID := types.ID req;
        types.Method := types.Method req; types.Params := raw |}, err)
  else st.

(** [json.Unmarshal(data, &req)] for [req types.MCPRequest]. *)
Definition Unmarshal_MCPRequest (data : string) : types.MCPRequest + error :=
  match parse_document data with
  | None => inr (SyntaxError data)
  | Some DocNull => inl types.MCPRequest_zero
  | Some (DocObject ms) =>
      finish (fold_left set_MCPRequest_field ms (types.MCPRequest_zero, None))
  | Some (DocOther v) => inr (UnmarshalTypeError v "value of type types.MCPRequest")
  end.

Definition set_CallToolParams_field (st : types.CallToolParams * option error)
  (m : member) : types.CallToolParams * option error :=
  let '(p, err) := st in
  let '(k, _, v) := m in
  let key := fold_name k in
  if String.eqb key "name" then
    match v with
    | VString t => ({| types.ToolName := t; types.Arguments := types.Arguments p |}, err)
    | VNil => st
    | _ => (p, save_error err
                 (UnmarshalTypeError v "struct field CallToolParams.name of type string"))
    end
  else if String.eqb key "arguments" then
    match v with
    | VMap fs => ({| types.ToolName := types.ToolName p; types.Arguments := Some fs |}, err)
    | VNil => ({| types.ToolName := types.ToolName p; types.Arguments := None |}, err)
    | _ => (p, save_error err
                 (UnmarshalTypeError v
                    "struct field CallToolParams.arguments of type map[string]interface {}"))
    end
  else st.

(** [json.Unmarshal(data, &params)] for [params types.CallToolParams]. *)
Definition Unmarshal_CallToolParams (data : string) : types.CallToolParams + error :=
  match parse_document data with
  | None => inr (SyntaxError data)
  | Some DocNull => inl types.CallToolParams_zero
  | Some (DocObject ms) =>
      finish (fold_left set_CallToolParams_field ms (types.CallToolParams_zero, None))
  | Some (DocOther v) => inr (UnmarshalTypeError v "value of type types.CallToolParams")
  end.

(** [json.Unmarshal(data, &m)] for [m map[string]interface{}]. *)
Definition Unmarshal_map (data : string) : gomap + error :=
  match parse_document data with
  | None => inr (SyntaxError data)
  | Some DocNull => inl None
  | Some (DocObject ms) => inl (Some (members_map ms))
  | Some (DocOther v) => inr (UnmarshalTypeError v "value of type map[string]interface {}")
  end.

(** *** Encoding *)

Definition hex_digit (n : N) : ascii :=
  if (n <? 10)%N then ascii_of_N (48 + n)%N else ascii_of_N (87 + n)%N.

Definition escape_char (c : ascii) : string :=
  let n := N_of_ascii c in
  if Ascii.eqb c dquote then "\" ++ dq
  else if Ascii.eqb c "\" then "\\"
  else if Ascii.eqb c "010" then "\n"
  else if Ascii.eqb c "013" then "\r"
  else if Ascii.eqb c "009" then "\t"
  else if (n <? 32)%N || Ascii.eqb c "<" || Ascii.eqb c ">" || Ascii.eqb c "&" then
    "\u00" ++ String (hex_digit (n / 16)%N) (String (hex_digit (n mod 16)%N) EmptyString)
  else String c EmptyString.

Fixpoint escape (s : string) : string :=
  match s with
  | String c r => escape_char c ++ escape r
  | EmptyString => EmptyString
  end.

Definition quote (s : string) : string := dq ++ escape s ++ dq.

Fixpoint join (l : list string) : string :=
  match l with
  | [] => ""
  | [x] => x
  | x :: l' => x ++ "," ++ join l'
  end.

(** [json.Marshal] of a dynamic value; map keys come out sorted. *)
Fixpoint Marshal_value (v : value) : string :=
  match v with
  | VNil => "null"
  | VBool true => "true"
  | VBool false => "false"
  | VNumber lit => lit
  | VString t => quote t
  | VArray items => "[" ++ join (List.map Marshal_value items) ++ "]"
  | VMap fields =>
      "{" ++ join (List.map (fun kv => match kv with
                                       | (k, x) => quote k ++ ":" ++ Marshal_value x
                                       end) fields) ++ "}"
  end.

(** [json.Marshal] of a handler's result: it fails on an unsupported
    value. *)
Definition Marshal_handler_result (x : handler_result) : string + error :=
  match x with
  | Encodable v => inl (Marshal_value v)
  | Unsupported what => inr ("json: unsupported value: " ++ what)
  end.

Definition Marshal_gomap (m : gomap) : string :=
  match m with
  | None => "null"
  | Some fields => Marshal_value (VMap fields)
  end.

Definition Marshal_Tool (t : types.Tool) : string :=
  (js "{'name':") ++ quote (types.Name t)
    ++ (js ",'description':") ++ quote (types.Description t)
    ++ (js ",'inputSchema':") ++ Marshal_gomap (types.InputSchema t) ++ "}".

Definition Marshal_ContentBlock (b : types.ContentBlock) : string :=
  (js "{'type':") ++ quote (types.Type_ b) ++ (js ",'text':") ++ quote (types.Text b) ++ "}".

Definition Marshal_result (r : types.result) : string :=
  match r with
  | types.ResultMap m => Marshal_value (VMap m)
  | types.ResultListTools l =>
      (js "{'tools':[") ++ join (List.map Marshal_Tool (types.Tools l)) ++ "]}"
  | types.ResultCallTool c =>
      (js "{'content':[") ++ join (List.map Marshal_ContentBlock (types.Content c)) ++ "]}"
  end.

Definition Marshal_MCPError (e : types.MCPError) : string :=
  (js "{'code':") ++ pretty (types.Code e)
    ++ (js ",'message':") ++ quote (types.Message e)
    ++ match types.Data e with
       | VNil => ""
       | d => (js ",'data':") ++ Marshal_value d
       end
    ++ "}".

(** [json.Marshal(response)]: every response of the model is built from
    strings, numbers, lists and maps, which the encoder accepts. *)
Definition Marshal_MCPResponse (r : types.MCPResponse) : string + error :=
  inl (js "{'jsonrpc':" ++ quote (types.RespJSONRPC r)
         ++ (js ",'id':") ++ Marshal_value (types.RespID r)
         ++ match types.Result r with
            | None => ""
            | Some x => (js ",'result':") ++ Marshal_result x
            end
         ++ match types.Error r with
            | None => ""
            | Some e => (js ",'error':") ++ Marshal_MCPError e
            end
         ++ "}").

End json.



(** ** Package [net/http], as far as the transports use it *)
Module http.

Definition StatusOK : Z := 200.
Definition StatusBadRequest : Z := 400.
Definition StatusUnauthorized : Z := 401.
Definition StatusNotFound : Z := 404.
Definition StatusMethodNotAllowed : Z := 405.
Definition StatusInternalServerError : Z := 500.

Definition MethodGet : string := "GET".
Definition MethodPost : string := "POST".

Definition nl : string := String "010" EmptyString.

(** Headers by their (canonical) name, with the first value of each. *)
Abbreviation Header := (gmap string string).

(** [h.Get(key)]: the empty string when the header is absent. *)
Definition Get (h : Header) (key : string) : string := default "" (h !! key).

(** An incoming request; [Body = None] when reading the body fails. *)
Record Request : Type := {
  Method : string;
  Path : string;
  ReqHeader : Header;
  Body : option string;
  (** ticks of a 30 s ticker seen before the request's context is done *)
  TicksBeforeDone : nat
}.

(** A response writer: the header map, the status line once written, the
    bytes written, and whether the writer is an [http.Flusher]. *)
Record ResponseWriter : Type := {
  RespHeader : Header;
  Status : option Z;
  Written : string;
  IsFlusher : bool
}.

(** The writer an [http.Server] hands to its handler. *)
Definition NewResponseWriter : ResponseWriter :=
  {| RespHeader := ∅; Status := None; Written := ""; IsFlusher := true |}.

Definition Set_ (w : ResponseWriter) (key val : string) : ResponseWriter :=
  {| RespHeader := <[key := val]> (RespHeader w); Status := Status w;
     Written := Written w; IsFlusher := IsFlusher w |}.

Definition Del (w : ResponseWriter) (key : string) : ResponseWriter :=
  {| RespHeader := delete key (RespHeader w); Status := Status w;
     Written := Written w; IsFlusher := IsFlusher w |}.

(** Only the first [WriteHeader] counts. *)
Definition WriteHeader (w : ResponseWriter) (code : Z) : ResponseWriter :=
  match Status w with
  | Some _ => w
  | None =>
      {| RespHeader := RespHeader w; Status := Some code;
         Written := Written w; IsFlusher := IsFlusher w |}
  end.

(** [w.Write]: sends status 200 first when no status was written. *)
Definition Write (w : ResponseWriter) (data : string) : ResponseWriter :=
  let w := WriteHeader w StatusOK in
  {| RespHeader := RespHeader w; Status := Status w;
     Written := Written w ++ data; IsFlusher := IsFlusher w |}.

Definition Flush (w : ResponseWriter) : ResponseWriter := WriteHeader w StatusOK.

(** [http.Error(w, error, code)] *)
Definition Error (w : ResponseWriter) (error : string) (code : Z) : ResponseWriter :=
  let w := Del w "Content-Length" in
  let w := Set_ w "Content-Type" "text/plain; charset=utf-8" in
  let w := Set_ w "X-Content-Type-Options" "nosniff" in
  let w := WriteHeader w code in
  Write w (error ++ nl).

(** The status code the client receives. *)
Definition StatusCode (w : ResponseWriter) : Z := default StatusOK (Status w).

Definition Handler : Type := ResponseWriter -> Request -> ResponseWriter.

End http.

(** ** The clock and the random source *)

(** What the process reads from outside: the successive readings of the
    clock (nanoseconds) and the bytes of [crypto/rand], with how many of
    each have been consumed. *)
Record World : Type := {
  clock : nat -> Z;
  readings : nat;
  entropy : nat -> Byte.byte;
  drawn : nat
}.

Module time.

Definition Duration : Type := Z.
Definition minDuration : Duration := - 2 ^ 63.
Definition maxDuration : Duration := 2 ^ 63 - 1.
Definition Second : Duration := 1000000000.
Definition Minute : Duration := 60 * Second.

Definition Now (wd : World) : Z * World :=
  (clock wd (readings wd),
   {| clock := clock wd; readings := S (readings wd);
      entropy := entropy wd; drawn := drawn wd |}).

(** [t.Sub(u)]: the difference, saturated to the range of [Duration]. *)
Definition Sub (t u : Z) : Duration :=
  let d := t - u in
  if d <? minDuration then minDuration
  else if d >? maxDuration then maxDuration
  else d.

(** [time.Since(t)] is [time.Now().Sub(t)]. *)
Definition Since (wd : World) (t : Z) : Duration * World :=
  let '(now, wd) := Now wd in (Sub now t, wd).

End time.

Module rand.

(** [rand.Read(bytes)] for a buffer of [n] bytes. *)
Definition Read (wd : World) (n : nat) : list Byte.byte * World :=
  (List.map (fun i => entropy wd (drawn wd + i)%nat) (seq 0 n),
   {| clock := clock wd; readings := readings wd;
      entropy := entropy wd; drawn := (drawn wd + n)%nat |}).

End rand.

Module hex.

Definition EncodeToString (src : list Byte.byte) : string :=
  fold_right
    (fun b acc =>
       let n := Byte.to_N b in
       String (json.hex_digit (n / 16)%N) (String (json.hex_digit (n mod 16)%N) acc))
    EmptyString src.

End hex.

(** ** Package [pkg/mcp]: the dispatch engine *)
Module mcp.
Import types.

Definition ErrorCodeInvalidRequest : Z := -32600.
Definition ErrorCodeMethodNotFound : Z := -32601.
Definition ErrorCodeInvalidParams : Z := -32602.
Definition ErrorCodeInternalError : Z := -32603.

(** [func(params map[string]interface{}) (interface{}, error)] *)
Definition ToolHandler : Type := gomap -> handler_result * option json.error.

Record Server : Type := { tools : gmap string ToolHandler }.

Definition NewServer : Server := {| tools := ∅ |}.

Definition RegisterTool (s : Server) (name description : string)
  (inputSchema : gomap) (handler : ToolHandler) : Server :=
  {| tools := <[name := handler]> (tools s) |}.

Definition obj (l : list (string * value)) : value := VMap (map_of l).
Definition strs (l : list string) : value := VArray (List.map VString l).
Definition typed (t : string) : value := obj [("type", VString t)].

(** The map literal [toolDefinitions] of [getToolDefinition]. *)
Definition toolDefinitions : gmap string Tool :=
  list_to_map [
    ("basic_math",
     {| Name := "basic_math";
        Description := "Perform basic mathematical operations (add, subtract, multiply, divide)";
        InputSchema := Some (map_of [
          ("type", VString "object");
          ("properties", obj [
             ("operation", obj [
                ("type", VString "string");
                ("enum", strs ["add"; "subtract"; "multiply"; "divide"])]);
             ("operands", obj [
                ("type", VString "array");
                ("items", typed "number");
                ("minItems", VNumber "2")]);
             ("precision", obj [
                ("type", VString "integer");
                ("minimum", VNumber "0");
                ("maximum", VNumber "15");
                ("default", VNumber "2")])]);
          ("required", strs ["operation"; "operands"])]) |});
    ("advanced_math",
     {| Name := "advanced_math";
        Description := "Perform advanced mathematical functions (trigonometry, logarithms, etc.)";
        InputSchema := Some (map_of [
          ("type", VString "object");
          ("properties", obj [
             ("function", obj [
                ("type", VString "string");
                ("enum", strs ["sin"; "cos"; "tan"; "asin"; "acos"; "atan"; "log";
                               "log10"; "ln"; "sqrt"; "abs"; "factorial"; "pow"; "exp"])]);
             ("value", typed "number");
             ("unit", obj [
                ("type", VString "string");
                ("enum", strs ["radians"; "degrees"]);
                ("default", VString "radians")])]);
          ("required", strs ["function"; "value"])]) |});
    ("expression_eval",
     {| Name := "expression_eval";
        Description := "Evaluate mathematical expressions with variable substitution";
        InputSchema := Some (map_of [
          ("type", VString "object");
          ("properties", obj [
             ("expression", typed "string");
             ("variables", obj [
                ("type", VString "object");
                ("patternProperties", obj [
                   ("^[a-zA-Z][a-zA-Z0-9_]*$", typed "number")])])]);
          ("required", strs ["expression"])]) |});
    ("statistics",
     {| Name := "statistics";
        Description := "Perform statistical analysis on data sets";
        InputSchema := Some (map_of [
          ("type", VString "object");
          ("properties", obj [
             ("data", obj [
                ("type", VString "array");
                ("items", typed "number");
                ("minItems", VNumber "1")]);
             ("operation", obj [
                ("type", VString "string");
                ("enum", strs ["mean"; "median"; "mode"; "std_dev"; "variance";
                               "percentile"])])]);
          ("required", strs ["data"; "operation"])]) |});
    ("unit_conversion",
     {| Name := "unit_conversion";
        Description := "Convert between different units of measurement";
        InputSchema := Some (map_of [
          ("type", VString "object");
          ("properties", obj [
             ("value", typed "number");
             ("fromUnit", typed "string");
             ("toUnit", typed "string");
             ("category", obj [
                ("type", VString "string");
                ("enum", strs ["length"; "weight"; "temperature"; "volume"; "area"])])]);
          ("required", strs ["value"; "fromUnit"; "toUnit"; "category"])]) |});
    ("financial",
     {| Name := "financial";
        Description := "Perform financial calculations (interest, loans, ROI)";
        InputSchema := Some (map_of [
          ("type", VString "object");
          ("properties", obj [
             ("operation", obj [
                ("type", VString "string");
                ("enum", strs ["compound_interest"; "simple_interest"; "loan_payment";
                               "roi"; "present_value"; "future_value"])]);
             ("principal", obj [("type", VString "number"); ("minimum", VNumber "0")]);
             ("rate", obj [("type", VString "number"); ("minimum", VNumber "0")]);
             ("time", obj [("type", VString "number"); ("minimum", VNumber "0")]);
             ("periods", obj [("type", VString "integer"); ("minimum", VNumber "1")]);
             ("futureValue", obj [("type", VString "number"); ("minimum", VNumber "0")])]);
          ("required", strs ["operation"])]) |})
  ].

Definition getToolDefinition (s : Server) (name : string) : Tool :=
  match toolDefinitions !! name with
  | Some tool => tool
  | None => Tool_zero
  end.

(** The keys a [for name := range m] visits.  Go leaves the order
    unspecified; each key is visited once. *)
Definition range_keys {A : Type} (m : gmap string A) : list string :=
  elements (dom m).

Definition with_Result (response : MCPResponse) (r : result) : MCPResponse :=
  {| RespJSONRPC := RespJSONRPC response; RespID := RespID response;
     Result := Some r; Error := Error response |}.

Definition with_Error (response : MCPResponse) (e : MCPError) : MCPResponse :=
  {| RespJSONRPC := RespJSONRPC response; RespID := RespID response;
     Result := Result response; Error := Some e |}.

Definition HandleRequest (s : Server) (req : MCPRequest) : MCPResponse :=
  let response :=
    {| RespJSONRPC := "2.0"; RespID := ID req; Result := None; Error := None |} in
  if String.eqb (Method req) "initialize" then
    with_Result response
      (ResultMap (map_of [
         ("protocolVersion", VString "2024-11-05");
         ("capabilities", obj [("tools", obj [])]);
         ("serverInfo", obj [
            ("name", VString "calculator-server");
            ("version", VString "1.0.0")])]))
  else if String.eqb (Method req) "tools/list" then
    let tools :=
      fold_left (fun tools name => (tools ++ [getToolDefinition s name])%list)
        (range_keys (mcp.tools s)) [] in
    with_Result response (ResultListTools {| Tools := tools |})
  else if String.eqb (Method req) "tools/call" then
    match json.Unmarshal_CallToolParams (Params req) with
    | inr err =>
        with_Error response
          {| Code := ErrorCodeInvalidParams; Message := "Invalid parameters";
             Data := VString err |}
    | inl params =>
        match (mcp.tools s !! ToolName params : option ToolHandler) with
        | None =>
            with_Error response
              {| Code := ErrorCodeMethodNotFound; Message := "Tool not found";
                 Data := VString (ToolName params) |}
        | Some handler =>
            match handler (Arguments params) with
            | (_, Some err) =>
                with_Error response
                  {| Code := ErrorCodeInternalError; Message := "Tool execution failed";
                     Data := VString err |}
            | (result, None) =>
                (* resultJSON, _ := json.Marshal(result): the error is
                   dropped and the bytes are then nil *)
                let resultJSON :=
                  match json.Marshal_handler_result result with
                  | inl text => text
                  | inr _ => ""
                  end in
                with_Result response
                  (ResultCallTool
                     {| Content := [ {| Type_ := "text"; Text := resultJSON |} ] |})
            end
        end
    end
  else
    with_Error response
      {| Code := ErrorCodeMethodNotFound; Message := "Method not found";
         Data := VString (Method req) |}.

(** *** The stdio transport *)

(** Standard output and standard error, as the lines written so far. *)
Record Console : Type := { stdout : list string; stderr : list string }.

Definition writeResponse (c : Console) (response : MCPResponse) : Console :=
  match json.Marshal_MCPResponse response with
  | inr err =>
      {| stdout := stdout c;
         stderr := app (stderr c) ["Error marshaling response: " ++ err] |}
  | inl responseJSON =>
      {| stdout := (stdout c ++ [responseJSON])%list; stderr := stderr c |}
  end.

(** The body of [Run]'s loop over the lines [scanner.Scan] delivers. *)
Fixpoint Run_loop (s : Server) (lines : list string) (c : Console) : Console :=
  match lines with
  | [] => c
  | line :: rest =>
      if String.eqb line "" then Run_loop s rest c
      else
        match json.Unmarshal_MCPRequest line with
        | inr err =>
            let response :=
              {| RespJSONRPC := "2.0"; RespID := VNil; Result := None;
                 Error := Some {| Code := ErrorCodeInvalidRequest;
                                  Message := "Parse error";
                                  Data := VString err |} |} in
            Run_loop s rest (writeResponse c response)
        | inl req =>
            let response := HandleRequest s req in
            Run_loop s rest (writeResponse c response)
        end
  end.


(** [for _, allowed := range origins { if allowed == "*" || allowed == origin ... }] *)
Fixpoint originAllowed (origins : list string) (origin : string) : bool :=
  match origins with
  | [] => false
  | allowed :: rest =>
      if String.eqb allowed "*" || String.eqb allowed origin then true
      else originAllowed rest origin
  end.

(** [json.NewEncoder(w).Encode(response)]: nothing is written when the
    encoder fails. *)
Definition Encode (w : http.ResponseWriter) (response : MCPResponse)
  : http.ResponseWriter :=
  match json.Marshal_MCPResponse response with
  | inl text => http.Write w (text ++ http.nl)
  | inr _ => w
  end.

(** *** The plain HTTP transport *)
Module HTTPTransport.

Record HTTPConfig : Type := {
  Host : string;
  Port : Z;
  CORSEnabled : bool;
  CORSOrigins : list string;
  ReadTimeout : Z;
  WriteTimeout : Z;
  IdleTimeout : Z
}.

Record t : Type := { mcpServer : Server; config : HTTPConfig }.

Definition Second : Z := 1000000000.

Definition NewHTTPTransport (mcpServer : Server) (config : option HTTPConfig) : t :=
  let config :=
    match config with
    | Some c => c
    | None =>
        {| Host := "0.0.0.0"; Port := 8080; CORSEnabled := true;
           CORSOrigins := ["*"]; ReadTimeout := 30 * Second;
           WriteTimeout := 30 * Second; IdleTimeout := 120 * Second |}
    end in
  {| mcpServer := mcpServer; config := config |}.

Definition isOriginAllowed (tr : t) (origin : string) : bool :=
  originAllowed (CORSOrigins (config tr)) origin.

Definition corsMiddleware (tr : t) (handler : http.Handler) : http.Handler :=
  fun w r =>
    if CORSEnabled (config tr) then
      let origin := http.Get (http.ReqHeader r) "Origin" in
      let w :=
        if isOriginAllowed tr origin
        then http.Set_ w "Access-Control-Allow-Origin" origin else w in
      let w := http.Set_ w "Access-Control-Allow-Methods" "GET, POST, OPTIONS" in
      let w := http.Set_ w "Access-Control-Allow-Headers" "Content-Type, Authorization" in
      let w := http.Set_ w "Access-Control-Max-Age" "86400" in
      if String.eqb (http.Method r) "OPTIONS" then http.WriteHeader w http.StatusOK
      else handler w r
    else handler w r.

Definition writeJSONResponse (w : http.ResponseWriter) (data : MCPResponse)
  (statusCode : Z) : http.ResponseWriter :=
  let w := http.Set_ w "Content-Type" "application/json" in
  let w := http.WriteHeader w statusCode in
  Encode w data.

Definition handleMCP (tr : t) : http.Handler :=
  fun w r =>
    if negb (String.eqb (http.Method r) http.MethodPost) then
      http.Error w "Method not allowed" http.StatusMethodNotAllowed
    else
      let contentType := http.Get (http.ReqHeader r) "Content-Type" in
      if negb (Contains contentType "application/json") then
        http.Error w "Content-Type must be application/json" http.StatusBadRequest
      else
        match http.Body r with
        | None => http.Error w "Failed to read request body" http.StatusBadRequest
        | Some body =>
            match json.Unmarshal_MCPRequest body with
            | inr err =>
                let responseID :=
                  match json.Unmarshal_map body with
                  | inl rawMap =>
                      match map_get "id" (default [] rawMap) with
                      | Some id => id
                      | None => VNil
                      end
                  | inr _ => VNil
                  end in
                let response :=
                  {| RespJSONRPC := "2.0"; RespID := responseID; Result := None;
                     Error := Some {| Code := ErrorCodeInvalidRequest;
                                      Message := "Invalid JSON-RPC request";
                                      Data := VString err |} |} in
                writeJSONResponse w response http.StatusBadRequest
            | inl mcpReq =>
                let response := HandleRequest (mcpServer tr) mcpReq in
                let statusCode :=
                  match Error response with
                  | Some e =>
                      if Code e =? ErrorCodeInvalidRequest then http.StatusBadRequest
                      else if Code e =? ErrorCodeMethodNotFound then http.StatusNotFound
                      else if Code e =? ErrorCodeInvalidParams then http.StatusBadRequest
                      else if Code e =? ErrorCodeInternalError
                      then http.StatusInternalServerError
                      else http.StatusInternalServerError
                  | None => http.StatusOK
                  end in
                writeJSONResponse w response statusCode
            end
        end.

Definition handleToolsList (tr : t) : http.Handler :=
  fun w r =>
    if negb (String.eqb (http.Method r) http.MethodGet) then
      http.Error w "Method not allowed" http.StatusMethodNotAllowed
    else
      let mcpReq :=
        {| JSONRPC := "2.0"; ID := VString "tools-list"; Method := "tools/list";
           Params := "" |} in
      let response := HandleRequest (mcpServer tr) mcpReq in
      let statusCode :=
        match Error response with
        | Some _ => http.StatusInternalServerError
        | None => http.StatusOK
        end in
      writeJSONResponse w response statusCode.

(** What the server runs for a request on the pattern [/mcp]: the
    handler [setupRoutes] registers, under the CORS layer. *)
Definition serveMCP (tr : t) (r : http.Request) : http.ResponseWriter :=
  corsMiddleware tr (handleMCP tr) http.NewResponseWriter r.

End HTTPTransport.

(** *** The streamable HTTP transport *)
Module StreamableHTTPTransport.

Record StreamableHTTPConfig : Type := {
  Host : string;
  Port : Z;
  SessionTimeout : time.Duration;
  MaxConnections : Z;
  CORSEnabled : bool;
  CORSOrigins : list string
}.

Record t : Type := {
  mcpServer : Server;
  config : StreamableHTTPConfig;
  sessions : gmap string Session;
  connections : Z
}.

Definition with_sessions (tr : t) (m : gmap string Session) : t :=
  {| mcpServer := mcpServer tr; config := config tr; sessions := m;
     connections := connections tr |}.

(** Handlers of this transport also touch the session store and read
    the clock and the random source. *)
Definition Handler : Type :=
  t -> World -> http.ResponseWriter -> http.Request
  -> t * World * http.ResponseWriter.

Definition NewStreamableHTTPTransport (mcpServer : Server)
  (config : option StreamableHTTPConfig) : t :=
  let config :=
    match config with
    | Some c => c
    | None =>
        {| Host := "127.0.0.1"; Port := 8080; SessionTimeout := 5 * time.Minute;
           MaxConnections := 100; CORSEnabled := true; CORSOrigins := ["*"] |}
    end in
  {| mcpServer := mcpServer; config := config; sessions := ∅; connections := 0 |}.

Definition isOriginAllowed (tr : t) (origin : string) : bool :=
  originAllowed (CORSOrigins (config tr)) origin.

Definition corsMiddleware (handler : Handler) : Handler :=
  fun tr wd w r =>
    if CORSEnabled (config tr) then
      let origin := http.Get (http.ReqHeader r) "Origin" in
      let w :=
        if isOriginAllowed tr origin
        then http.Set_ w "Access-Control-Allow-Origin" origin else w in
      let w := http.Set_ w "Access-Control-Allow-Methods" "GET, POST, OPTIONS" in
      let w := http.Set_ w "Access-Control-Allow-Headers"
                 "Content-Type, Accept, MCP-Protocol-Version, Mcp-Session-Id" in
      let w := http.Set_ w "Access-Control-Max-Age" "86400" in
      if String.eqb (http.Method r) "OPTIONS"
      then (tr, wd, http.WriteHeader w http.StatusOK)
      else handler tr wd w r
    else handler tr wd w r.

(** **** Session management *)

Definition createSession (tr : t) (wd : World) : string * t * World :=
  let '(bytes, wd) := rand.Read wd 16 in
  let sessionID := hex.EncodeToString bytes in
  let '(createdAt, wd) := time.Now wd in
  let '(lastSeen, wd) := time.Now wd in
  let session :=
    {| SessionID := sessionID; CreatedAt := createdAt; LastSeen := lastSeen;
       Active := true |} in
  (sessionID, with_sessions tr (<[sessionID := session]> (sessions tr)), wd).

Definition isValidSession (tr : t) (wd : World) (sessionID : string) : bool * World :=
  match sessions tr !! sessionID with
  | None => (false, wd)
  | Some session =>
      if negb (Active session) then (false, wd)
      else
        let '(elapsed, wd) := time.Since wd (LastSeen session) in
        if elapsed >? SessionTimeout (config tr) then (false, wd)
        else (true, wd)
  end.

Definition updateSessionActivity (tr : t) (wd : World) (sessionID : string)
  : t * World :=
  match sessions tr !! sessionID with
  | Some session =>
      let '(now, wd) := time.Now wd in
      let session :=
        {| SessionID := SessionID session; CreatedAt := CreatedAt session;
           LastSeen := now; Active := Active session |} in
      (with_sessions tr (<[sessionID := session]> (sessions tr)), wd)
  | None => (tr, wd)
  end.

(** One wake-up of [cleanupExpiredSessions] at clock reading [now]. *)
Definition cleanupExpiredSessions_tick (tr : t) (now : Z) : t :=
  with_sessions tr
    (filter (fun kv => (time.Sub now (LastSeen (snd kv))
                          >? SessionTimeout (config tr)) = false)
       (sessions tr)).

Definition generateEventID (wd : World) : string * World :=
  let '(bytes, wd) := rand.Read wd 8 in
  (hex.EncodeToString bytes, wd).

(** **** Writers *)

Definition writeSSEResponse (wd : World) (w : http.ResponseWriter)
  (response : MCPResponse) (sessionID : string) : World * http.ResponseWriter :=
  let w := http.Set_ w "Content-Type" "text/event-stream" in
  let w := http.Set_ w "Cache-Control" "no-cache" in
  let w := http.Set_ w "Connection" "keep-alive" in
  let w := if negb (String.eqb sessionID "")
           then http.Set_ w "Mcp-Session-Id" sessionID else w in
  if negb (http.IsFlusher w) then
    (wd, http.Error w "Server does not support streaming"
           http.StatusInternalServerError)
  else
    let '(eventID, wd) := generateEventID wd in
    let responseJSON :=
      match json.Marshal_MCPResponse response with
      | inl text => text
      | inr _ => ""
      end in
    let w := http.Write w ("id: " ++ eventID ++ http.nl) in
    let w := http.Write w ("event: message" ++ http.nl) in
    let w := http.Write w ("data: " ++ responseJSON ++ http.nl ++ http.nl) in
    (wd, http.Flush w).

(** The heartbeat loop: one frame per tick until the context is done. *)
Fixpoint heartbeats (n : nat) (wd : World) (w : http.ResponseWriter)
  : World * http.ResponseWriter :=
  match n with
  | O => (wd, w)
  | S n =>
      let '(eventID, wd) := generateEventID wd in
      let w := http.Write w ("id: " ++ eventID ++ http.nl) in
      let w := http.Write w ("event: heartbeat" ++ http.nl) in
      let w := http.Write w (js "data: {'type':'ping'}" ++ http.nl ++ http.nl) in
      heartbeats n wd (http.Flush w)
  end.

Definition setupSSEStream (wd : World) (w : http.ResponseWriter) (r : http.Request)
  (sessionID : string) : World * http.ResponseWriter :=
  let w := http.Set_ w "Content-Type" "text/event-stream" in
  let w := http.Set_ w "Cache-Control" "no-cache" in
  let w := http.Set_ w "Connection" "keep-alive" in
  let w := http.Set_ w "Mcp-Session-Id" sessionID in
  if negb (http.IsFlusher w) then
    (wd, http.Error w "Server does not support streaming"
           http.StatusInternalServerError)
  else
    let '(eventID, wd) := generateEventID wd in
    let w := http.Write w ("id: " ++ eventID ++ http.nl) in
    let w := http.Write w ("event: connection" ++ http.nl) in
    let w := http.Write w (js "data: {'type':'connected','session_id':'"
                             ++ sessionID ++ (js "'}") ++ http.nl ++ http.nl) in
    heartbeats (http.TicksBeforeDone r) wd (http.Flush w).

Definition writeJSONResponse (w : http.ResponseWriter) (response : MCPResponse)
  : http.ResponseWriter :=
  let w := http.Set_ w "Content-Type" "application/json" in
  let statusCode :=
    match Error response with
    | Some e =>
        if Code e =? ErrorCodeInvalidRequest then http.StatusBadRequest
        else if Code e =? ErrorCodeMethodNotFound then http.StatusNotFound
        else if Code e =? ErrorCodeInvalidParams then http.StatusBadRequest
        else if Code e =? ErrorCodeInternalError then http.StatusInternalServerError
        else http.StatusInternalServerError
    | None => http.StatusOK
    end in
  let w := http.WriteHeader w statusCode in
  Encode w response.

Definition writeErrorResponse (w : http.ResponseWriter) (id : value) (code : Z)
  (message data : string) : http.ResponseWriter :=
  let response :=
    {| RespJSONRPC := "2.0"; RespID := id; Result := None;
       Error := Some {| Code := code; Message := message; Data := VString data |} |} in
  writeJSONResponse w response.

(** **** Request handling *)

Definition shouldStream (req : MCPRequest) : bool :=
  String.eqb (Method req) "tools/call".

Definition handlePOST (tr : t) (wd : World) (w : http.ResponseWriter)
  (r : http.Request) (sessionID : string) : World * http.ResponseWriter :=
  let accept := http.Get (http.ReqHeader r) "Accept" in
  if negb (Contains accept "application/json")
     && negb (Contains accept "text/event-stream") then
    (wd, http.Error w
           "Accept header must include application/json or text/event-stream"
           http.StatusBadRequest)
  else
    match http.Body r with
    | None => (wd, http.Error w "Failed to read request body" http.StatusBadRequest)
    | Some body =>
        match json.Unmarshal_MCPRequest body with
        | inr err =>
            (wd, writeErrorResponse w VNil ErrorCodeInvalidRequest
                   "Invalid JSON-RPC request" err)
        | inl mcpReq =>
            let response := HandleRequest (mcpServer tr) mcpReq in
            if Contains accept "text/event-stream" && shouldStream mcpReq
            then writeSSEResponse wd w response sessionID
            else (wd, writeJSONResponse w response)
        end
    end.

Definition handleGET (tr : t) (wd : World) (w : http.ResponseWriter)
  (r : http.Request) (sessionID : string) : t * World * http.ResponseWriter :=
  let accept := http.Get (http.ReqHeader r) "Accept" in
  if negb (Contains accept "text/event-stream") then
    (tr, wd, http.Error w
               "Accept header must include text/event-stream for GET requests"
               http.StatusBadRequest)
  else
    let '(sessionID, tr, wd) :=
      if String.eqb sessionID "" then createSession tr wd
      else (sessionID, tr, wd) in
    let '(wd, w) := setupSSEStream wd w r sessionID in
    (tr, wd, w).

Definition handleMCP : Handler :=
  fun tr wd w r =>
    let protocolVersion := http.Get (http.ReqHeader r) "MCP-Protocol-Version" in
    if String.eqb protocolVersion "" then
      (tr, wd, http.Error w "MCP-Protocol-Version header required"
                 http.StatusBadRequest)
    else
      let sessionID := http.Get (http.ReqHeader r) "Mcp-Session-Id" in
      let gate :=
        if negb (String.eqb sessionID "") then
          let '(valid, wd) := isValidSession tr wd sessionID in
          if negb valid then (false, tr, wd)
          else let '(tr, wd) := updateSessionActivity tr wd sessionID in
               (true, tr, wd)
        else (true, tr, wd) in
      let '(ok, tr, wd) := gate in
      if negb ok then
        (tr, wd, http.Error w "Invalid or expired session" http.StatusUnauthorized)
      else if String.eqb (http.Method r) http.MethodPost then
        let '(wd, w) := handlePOST tr wd w r sessionID in (tr, wd, w)
      else if String.eqb (http.Method r) http.MethodGet then
        handleGET tr wd w r sessionID
      else
        (tr, wd, http.Error w "Method not allowed" http.StatusMethodNotAllowed).

(** What the server runs for a request on the pattern [/mcp], the only
    route: [handleMCP] under the CORS layer, on a fresh writer. *)
Definition serveMCP (tr : t) (wd : World) (r : http.Request)
  : t * World * http.ResponseWriter :=
  corsMiddleware handleMCP tr wd http.NewResponseWriter r.

End StreamableHTTPTransport.

End mcp.



(** * Statements

    The vocabulary of the propositions: what a response writer carries,
    which requests reach which stage, and the sample inputs on which the
    propositions are evaluated. *)

Import types mcp.

Section DispatchStatements.

(** The six names of the fixed table. *)
Definition tableNames : list string :=
  ["basic_math"; "advanced_math"; "expression_eval"; "statistics";
   "unit_conversion"; "financial"].

(** A call [s.RegisterTool(name, description, inputSchema, handler)]. *)
Record Registration : Type := {
  reg_name : string;
  reg_description : string;
  reg_inputSchema : gomap;
  reg_handler : ToolHandler
}.

Definition register (s : Server) (g : Registration) : Server :=
  RegisterTool s (reg_name g) (reg_description g) (reg_inputSchema g) (reg_handler g).

(** The server after a sequence of registrations. *)
Definition register_all (regs : list Registration) (s : Server) : Server :=
  fold_left register regs s.

(** The listing has exactly one entry named [n]. *)
Definition listed_once (s : Server) (req : MCPRequest) (n : string) : Prop :=
  exists tools,
    Result (HandleRequest s req) = Some (ResultListTools {| Tools := tools |})
    /\ length (filter (fun tool => Name tool = n) tools) = 1%nat.

Definition custom_handler : ToolHandler := fun _ => (Encodable (VNumber "8"), None).

Definition list_request : MCPRequest :=
  {| JSONRPC := "2.0"; ID := VNumber "1"; Method := "tools/list"; Params := "" |}.

Definition unknown_method (req : MCPRequest) : Prop :=
  Method req <> "initialize" /\ Method req <> "tools/list"
  /\ Method req <> "tools/call".

(** [req] is a [tools/call] whose params parse and name the tool [x],
    which is not registered. *)
Definition unknown_tool (s : Server) (req : MCPRequest) (x : string) : Prop :=
  Method req = "tools/call"
  /\ exists params,
      json.Unmarshal_CallToolParams (Params req) = inl params
      /\ ToolName params = x /\ tools s !! x = None.

Definition call_request (params : string) : MCPRequest :=
  {| JSONRPC := "2.0"; ID := VNumber "1"; Method := "tools/call"; Params := params |}.

Definition method_request (method : string) : MCPRequest :=
  {| JSONRPC := "2.0"; ID := VNumber "1"; Method := method; Params := "" |}.

End DispatchStatements.

Section StdioStatements.





End StdioStatements.

Section PlainHTTPStatements.

Import HTTPTransport.

(** A response writer that carries the JSON encoding of [response] with
    status [code]. *)
Definition json_response (w : http.ResponseWriter) (response : MCPResponse)
  (code : Z) : Prop :=
  http.StatusCode w = code
  /\ http.RespHeader w !! "Content-Type" = Some "application/json"
  /\ exists text,
      json.Marshal_MCPResponse response = inl text
      /\ http.Written w = text ++ http.nl.

Definition post (headers : list (string * string)) (body : string) : http.Request :=
  {| http.Method := "POST"; http.Path := "/mcp";
     http.ReqHeader := list_to_map headers; http.Body := Some body;
     http.TicksBeforeDone := 0 |}.

End PlainHTTPStatements.

Section StreamableHTTPStatements.

Import StreamableHTTPTransport.

(** The writer [handleMCP] receives from the CORS layer. *)
Definition cors_writer (tr : t) (r : http.Request) : http.ResponseWriter :=
  if CORSEnabled (config tr) then
    let origin := http.Get (http.ReqHeader r) "Origin" in
    let w :=
      if isOriginAllowed tr origin
      then http.Set_ http.NewResponseWriter "Access-Control-Allow-Origin" origin
      else http.NewResponseWriter in
    let w := http.Set_ w "Access-Control-Allow-Methods" "GET, POST, OPTIONS" in
    let w := http.Set_ w "Access-Control-Allow-Headers"
               "Content-Type, Accept, MCP-Protocol-Version, Mcp-Session-Id" in
    http.Set_ w "Access-Control-Max-Age" "86400"
  else http.NewResponseWriter.

Definition request (method : string) (headers : list (string * string))
  (body : string) : http.Request :=
  {| http.Method := method; http.Path := "/mcp";
     http.ReqHeader := list_to_map headers; http.Body := Some body;
     http.TicksBeforeDone := 0 |}.

Definition quiet_world : World :=
  {| clock := fun _ => 0; readings := 0; entropy := fun _ => Byte.x00; drawn := 0 |}.

Definition one_session (lastSeen : Z) : t :=
  with_sessions (NewStreamableHTTPTransport NewServer None)
    {[ "0a0b" := {| SessionID := "0a0b"; CreatedAt := 0; LastSeen := lastSeen;
                    Active := true |} ]}.

(** A clock whose readings are [start], [start + 1], ... *)
Definition world_at (start : Z) : World :=
  {| clock := fun n => start + Z.of_nat n; readings := 0;
     entropy := fun _ => Byte.x00; drawn := 0 |}.

Definition session_request : http.Request :=
  request "POST" [("MCP-Protocol-Version", "2024-11-05"); ("Mcp-Session-Id", "0a0b");
                  ("Accept", "application/json")]
    (js "{'jsonrpc':'2.0','id':1,'method':'initialize'}").


(** The request passes the header checks that precede the parsing of a
    POST body: protocol version present, session (if any) valid, Accept
    naming JSON or SSE. *)
Definition reaches_parsing (tr : t) (wd : World) (r : http.Request) : Prop :=
  http.Method r = "POST"
  /\ http.Get (http.ReqHeader r) "MCP-Protocol-Version" <> ""
  /\ (http.Get (http.ReqHeader r) "Mcp-Session-Id" = ""
      \/ fst (isValidSession tr wd (http.Get (http.ReqHeader r) "Mcp-Session-Id"))
         = true)
  /\ Contains (http.Get (http.ReqHeader r) "Accept") "application/json"
     || Contains (http.Get (http.ReqHeader r) "Accept") "text/event-stream" = true.

Definition invalid_request_response (id : value) (err : json.error) : MCPResponse :=
  {| RespJSONRPC := "2.0"; RespID := id; Result := None;
     Error := Some {| Code := ErrorCodeInvalidRequest;
                      Message := "Invalid JSON-RPC request";
                      Data := VString err |} |}.

Definition streamable_post (accept body : string) : http.Request :=
  request "POST" [("MCP-Protocol-Version", "2024-11-05"); ("Accept", accept)] body.

Definition math_transport : t :=
  NewStreamableHTTPTransport
    (RegisterTool NewServer "basic_math" "Basic math operations" None custom_handler)
    None.

(** What the plain transport recovers from a body that did not parse as
    a request: the [id] member when the body is a JSON object. *)
Definition recovered_id (body : string) : value :=
  match json.Unmarshal_map body with
  | inl rawMap => default VNil (map_get "id" (default [] rawMap))
  | inr _ => VNil
  end.

End StreamableHTTPStatements.

(** ** Further vocabulary

    The stages of request handling and the shapes of streams and stores
    that the further properties speak of. *)

Section DispatchMoreStatements.

(** The text of the content block for a handler's result: its JSON
    encoding, or the empty string when the encoder rejects it. *)
Definition result_text (result : handler_result) : string :=
  match json.Marshal_handler_result result with
  | inl text => text
  | inr _ => ""
  end.

(** The answer to a call that reaches the handler [h]. *)
Definition call_outcome (req : MCPRequest) (h : ToolHandler) (arguments : gomap)
  : MCPResponse :=
  match h arguments with
  | (_, Some err) =>
      {| RespJSONRPC := "2.0"; RespID := ID req; Result := None;
         Error := Some {| Code := ErrorCodeInternalError;
                          Message := "Tool execution failed";
                          Data := VString err |} |}
  | (result, None) =>
      {| RespJSONRPC := "2.0"; RespID := ID req;
         Result := Some (ResultCallTool
                           {| Content := [ {| Type_ := "text";
                                              Text := result_text result |} ] |});
         Error := None |}
  end.

Definition failing_handler : ToolHandler :=
  fun _ => (Encodable VNil, Some "division by zero").

(** A handler whose result the encoder rejects (an infinite float). *)
Definition overflowing_handler : ToolHandler := fun _ => (Unsupported "+Inf", None).

End DispatchMoreStatements.

Section PlainHTTPMoreStatements.

Import HTTPTransport.

(** The writer the handlers of the plain transport receive from its CORS
    layer. *)
Definition plain_cors_writer (tr : t) (r : http.Request) : http.ResponseWriter :=
  if CORSEnabled (config tr) then
    let origin := http.Get (http.ReqHeader r) "Origin" in
    let w :=
      if isOriginAllowed tr origin
      then http.Set_ http.NewResponseWriter "Access-Control-Allow-Origin" origin
      else http.NewResponseWriter in
    let w := http.Set_ w "Access-Control-Allow-Methods" "GET, POST, OPTIONS" in
    let w := http.Set_ w "Access-Control-Allow-Headers" "Content-Type, Authorization" in
    http.Set_ w "Access-Control-Max-Age" "86400"
  else http.NewResponseWriter.

(** The request is not a pre-flight answered by the CORS layer. *)
Definition plain_reaches_handler (tr : t) (r : http.Request) : Prop :=
  CORSEnabled (config tr) && String.eqb (http.Method r) "OPTIONS" = false.

(** What the server runs for a request on the pattern [/tools]. *)
Definition serveTools (tr : t) (r : http.Request) : http.ResponseWriter :=
  corsMiddleware tr (handleToolsList tr) http.NewResponseWriter r.

(** The four headers of the CORS layer, as [h] holds them. *)
Definition cors_headers (h : gmap string string) : list (option string) :=
  [ h !! "Access-Control-Allow-Origin"; h !! "Access-Control-Allow-Methods";
    h !! "Access-Control-Allow-Headers"; h !! "Access-Control-Max-Age" ].

End PlainHTTPMoreStatements.

Section StreamableHTTPMoreStatements.

Import StreamableHTTPTransport.

(** The request is not a pre-flight answered by the CORS layer. *)
Definition reaches_handler (tr : t) (r : http.Request) : Prop :=
  CORSEnabled (config tr) && String.eqb (http.Method r) "OPTIONS" = false.

(** The [switch r.Method] that ends [handleMCP]. *)
Definition method_switch (tr : t) (wd : World) (w : http.ResponseWriter)
  (r : http.Request) (sessionID : string) : t * World * http.ResponseWriter :=
  if String.eqb (http.Method r) http.MethodPost then
    (tr, fst (handlePOST tr wd w r sessionID), snd (handlePOST tr wd w r sessionID))
  else if String.eqb (http.Method r) http.MethodGet then
    handleGET tr wd w r sessionID
  else
    (tr, wd, http.Error w "Method not allowed" http.StatusMethodNotAllowed).

(** One SSE frame. *)
Definition sse_frame (id event data : string) : string :=
  "id: " ++ id ++ http.nl ++ "event: " ++ event ++ http.nl
    ++ "data: " ++ data ++ http.nl ++ http.nl.

Fixpoint concat_frames (frames : list string) : string :=
  match frames with
  | [] => ""
  | f :: rest => f ++ concat_frames rest
  end.

(** Every stored session sits under its own id. *)
Definition store_keyed_by_id (tr : t) : Prop :=
  forall id session, sessions tr !! id = Some session -> SessionID session = id.

Definition heartbeat_frame (id : string) : string :=
  sse_frame id "heartbeat" (js "{'type':'ping'}").

Definition connection_frame (id sessionID : string) : string :=
  sse_frame id "connection"
    (js "{'type':'connected','session_id':'" ++ sessionID ++ js "'}").

End StreamableHTTPMoreStatements.

(** * Properties *)

(** ** The dispatch engine *)
Section Dispatch.

Implicit Types (s : Server) (req : MCPRequest).

Lemma append_loop_map {A B : Type} (f : A -> B) (l : list A) (acc : list B) :
  fold_left (fun acc k => (acc ++ [f k])%list) l acc = (acc ++ List.map f l)%list.
Proof.
  revert acc; induction l as [|k l IH]; intros acc; simpl.
  - by rewrite app_nil_r.
  - by rewrite IH, <- app_assoc.
Qed.

(** What [tools/list] answers: one [getToolDefinition] per registered key. *)
Lemma HandleRequest_tools_list s req :
  Method req = "tools/list" ->
  HandleRequest s req =
    {| RespJSONRPC := "2.0"; RespID := ID req;
       Result := Some (ResultListTools
                         {| Tools := List.map (getToolDefinition s)
                                       (range_keys (tools s)) |});
       Error := None |}.
Proof.
  intros Hm. unfold HandleRequest. rewrite Hm. simpl.
  unfold with_Result; simpl. by rewrite append_loop_map.
Qed.

Lemma toolDefinitions_dom name :
  is_Some (toolDefinitions !! name) <-> name ∈ tableNames.
Proof.
  rewrite <- elem_of_dom. unfold toolDefinitions.
  rewrite dom_list_to_map_L, elem_of_list_to_set. reflexivity.
Qed.

Lemma toolDefinitions_Name name tool :
  toolDefinitions !! name = Some tool -> Name tool = name.
Proof.
  unfold toolDefinitions. intros H.
  apply elem_of_list_to_map in H.
  - repeat (apply elem_of_cons in H as [H|H]; [by inversion H|]).
    by apply elem_of_nil in H.
  - apply (bool_decide_unpack _). by vm_compute.
Qed.

Lemma getToolDefinition_defined s name :
  name ∈ tableNames ->
  toolDefinitions !! name = Some (getToolDefinition s name)
  /\ Name (getToolDefinition s name) = name.
Proof.
  intros [tool Ht]%toolDefinitions_dom. unfold getToolDefinition.
  rewrite Ht. split; [done|]. by apply toolDefinitions_Name.
Qed.

Lemma getToolDefinition_undefined s name :
  name ∉ tableNames -> getToolDefinition s name = Tool_zero.
Proof.
  intros Hn. unfold getToolDefinition.
  destruct (toolDefinitions !! name) as [tool|] eqn:Ht; [|done].
  exfalso. apply Hn, toolDefinitions_dom. by exists tool.
Qed.

(** In a duplicate-free list of keys, exactly one key maps to a name that
    only that key produces. *)
Lemma one_entry_per_key {A : Type} (f : string -> A) (g : A -> string)
  (keys : list string) (n : string) :
  NoDup keys -> n ∈ keys -> (forall k, g (f k) = n <-> k = n) ->
  length (filter (fun x => g x = n) (List.map f keys)) = 1%nat.
Proof.
  intros Hnd Hin Hf.
  induction Hnd as [|k keys Hk Hnd IH]; [by apply elem_of_nil in Hin|].
  simpl. destruct (decide (k = n)) as [->|Hne].
  - rewrite filter_cons_True by (by apply Hf). simpl. f_equal.
    apply length_zero_iff_nil.
    destruct (filter _ _) as [|x l'] eqn:Hfl; [done|exfalso].
    assert (Hx : x ∈ filter (fun x => g x = n) (List.map f keys))
      by (rewrite Hfl; left).
    apply list_elem_of_filter in Hx as [Hgx Hx].
    apply list_elem_of_In, in_map_iff in Hx as [k' [<- Hk']].
    apply (proj1 (Hf k')) in Hgx. rewrite Hgx in Hk'.
    by apply Hk, list_elem_of_In.
  - rewrite filter_cons_False by (by rewrite Hf).
    apply IH. apply elem_of_cons in Hin as [Hin|Hin]; [by subst|done].
Qed.

Lemma register_all_dom regs s :
  dom (tools (register_all regs s))
  = dom (tools s) ∪ list_to_set (List.map reg_name regs).
Proof.
  revert s; induction regs as [|g regs IH]; intros s; simpl.
  - by rewrite (right_id_L ∅ (∪)).
  - rewrite IH. unfold register, RegisterTool; simpl.
    by rewrite dom_insert_L, (comm_L (∪) {[reg_name g]}), (assoc_L (∪)).
Qed.

Lemma listed_once_defined s req n :
  Method req = "tools/list" -> n ∈ dom (tools s) -> n ∈ tableNames ->
  listed_once s req n.
Proof.
  intros Hm Hreg Hn. eexists. rewrite (HandleRequest_tools_list _ _ Hm). simpl.
  split; [reflexivity|].
  apply one_entry_per_key.
  - apply NoDup_elements.
  - by apply elem_of_elements.
  - intros k. split; [|intros ->; by apply getToolDefinition_defined].
    intros Hk. destruct (decide (k ∈ tableNames)) as [Hin|Hout].
    + by rewrite <- Hk, (proj2 (getToolDefinition_defined s k Hin)).
    + rewrite (getToolDefinition_undefined s k Hout) in Hk. simpl in Hk.
      subst n. revert Hn. clear. intros Hn. exfalso.
      repeat (apply elem_of_cons in Hn as [Hn|Hn]; [discriminate Hn|]).
      by apply elem_of_nil in Hn.
Qed.

(** C1, as stated, fails: a name outside the fixed table is registered and
    the listing has no entry of that name (its entry is the zero [Tool]). *)
Lemma tools_list_custom_name_unlisted :
  let s := RegisterTool NewServer "custom_tool" "A custom tool" None custom_handler in
  "custom_tool" ∈ dom (tools s)
  /\ ~ listed_once s list_request "custom_tool".
Proof.
  split.
  - simpl. rewrite dom_insert_L. set_solver.
  - intros [tools [Hres Hlen]]. vm_compute in Hres.
    injection Hres as <-. vm_compute in Hlen. discriminate Hlen.
Qed.

(** C1 (amended): for every name [n] registered through [RegisterTool],
    once or several times, that is one of the six names of the fixed
    definition table, the result of [tools/list] has exactly one entry
    whose name is [n]. *)
Theorem tools_list_one_entry_per_table_name
  (regs : list Registration) (req : MCPRequest) (n : string) :
  Method req = "tools/list" ->
  n ∈ List.map reg_name regs ->
  n ∈ tableNames ->
  listed_once (register_all regs NewServer) req n.
Proof.
  intros Hm Hreg Hn. apply listed_once_defined; [done| |done].
  rewrite register_all_dom. apply elem_of_union_r.
  by apply elem_of_list_to_set.
Qed.

Lemma tools_list_one_entry_witness :
  listed_once
    (register_all
       [ {| reg_name := "basic_math"; reg_description := "Basic math operations";
            reg_inputSchema := None; reg_handler := custom_handler |};
         {| reg_name := "custom_tool"; reg_description := "A custom tool";
            reg_inputSchema := None; reg_handler := custom_handler |};
         {| reg_name := "basic_math"; reg_description := "Registered again";
            reg_inputSchema := Some []; reg_handler := custom_handler |} ]
       NewServer)
    list_request "basic_math".
Proof.
  apply tools_list_one_entry_per_table_name.
  - reflexivity.
  - simpl. set_solver.
  - unfold tableNames. set_solver.
Defined.

(** C9: [RegisterTool] keeps the handler only.  Whatever description and
    schema are passed, the server is the same; the listing is read off the
    fixed table of six names, key by key; every listed entry is either an
    entry of that table or the zero [Tool]; and a registered name outside
    the table is listed as the zero [Tool] (empty name, empty description,
    nil schema). *)
Theorem RegisterTool_metadata_discarded
  (s : Server) (name description : string) (inputSchema : gomap)
  (handler : ToolHandler) (req : MCPRequest) :
  Method req = "tools/list" ->
  let s' := RegisterTool s name description inputSchema handler in
  (forall description' inputSchema',
      RegisterTool s name description' inputSchema' handler = s')
  /\ (forall k, is_Some (toolDefinitions !! k) <-> k ∈ tableNames)
  /\ exists listing,
      Result (HandleRequest s' req) = Some (ResultListTools {| Tools := listing |})
      /\ listing = List.map (fun k => default Tool_zero (toolDefinitions !! k))
                     (range_keys (tools s'))
      /\ (forall tool, tool ∈ listing ->
            tool = Tool_zero
            \/ exists k, k ∈ tableNames /\ toolDefinitions !! k = Some tool
                         /\ Name tool = k)
      /\ (name ∉ tableNames ->
            getToolDefinition s' name
            = {| Name := ""; Description := ""; InputSchema := None |}
            /\ Tool_zero ∈ listing).
Proof.
  intros Hm s'. split; [done|]. split; [apply toolDefinitions_dom|].
  eexists. rewrite (HandleRequest_tools_list _ _ Hm). simpl.
  split; [reflexivity|]. split; [|split].
  - apply map_ext. intros k. unfold getToolDefinition.
    by destruct (toolDefinitions !! k).
  - intros tool [k [<- Hk]]%list_elem_of_In%in_map_iff.
    destruct (decide (k ∈ tableNames)) as [Hin|Hout].
    + right. exists k. split; [done|].
      by destruct (getToolDefinition_defined s' k Hin).
    + left. by apply getToolDefinition_undefined.
  - intros Hout. split; [by apply getToolDefinition_undefined|].
    apply list_elem_of_In, in_map_iff. exists name.
    split; [by apply getToolDefinition_undefined|].
    apply list_elem_of_In, elem_of_elements. subst s'. simpl.
    rewrite dom_insert_L. by apply elem_of_union_l, elem_of_singleton.
Qed.

Lemma RegisterTool_metadata_discarded_witness :
  let s' := RegisterTool NewServer "custom_tool" "A custom tool"
              (Some [("type", VString "object")]) custom_handler in
  Result (HandleRequest s' list_request)
  = Some (ResultListTools {| Tools := [Tool_zero] |})
  /\ RegisterTool NewServer "custom_tool" "" None custom_handler = s'.
Proof.
  destruct (RegisterTool_metadata_discarded NewServer "custom_tool" "A custom tool"
              (Some [("type", VString "object")]) custom_handler list_request
              eq_refl) as [Hsame [_ [listing [Hres [Hl _]]]]].
  split; [|apply Hsame].
  rewrite Hres, Hl. reflexivity.
Defined.

(** C5 (amended): an unknown top-level method and a [tools/call] naming an
    unregistered tool [x] both answer with the code MethodNotFound
    (-32601) and no result; the data is the requested method string in the
    first case and [x] in the second; the message is "Method not found"
    in the first case and "Tool not found" in the second. *)
Theorem MethodNotFound_for_unknown_method_or_tool (s : Server) (req : MCPRequest) :
  (unknown_method req ->
     HandleRequest s req =
       {| RespJSONRPC := "2.0"; RespID := ID req; Result := None;
          Error := Some {| Code := -32601; Message := "Method not found";
                           Data := VString (Method req) |} |})
  /\ (forall x, unknown_tool s req x ->
        HandleRequest s req =
          {| RespJSONRPC := "2.0"; RespID := ID req; Result := None;
             Error := Some {| Code := -32601; Message := "Tool not found";
                              Data := VString x |} |}).
Proof.
  split.
  - intros (H1 & H2 & H3). unfold HandleRequest.
    apply String.eqb_neq in H1, H2, H3. by rewrite H1, H2, H3.
  - intros x (Hm & params & Hp & <- & Hx). unfold HandleRequest.
    by rewrite Hm, Hp, Hx.
Qed.

Lemma MethodNotFound_witness :
  Code <$> Error (HandleRequest NewServer (method_request "invalid_method"))
  = Some (-32601)
  /\ Error (HandleRequest NewServer
              (call_request (js "{'name': 'non_existent_tool'}")))
     = Some {| Code := -32601; Message := "Tool not found";
               Data := VString "non_existent_tool" |}.
Proof.
  split.
  - rewrite (proj1 (MethodNotFound_for_unknown_method_or_tool NewServer
                      (method_request "invalid_method"))); [reflexivity|].
    repeat split; discriminate.
  - rewrite (proj2 (MethodNotFound_for_unknown_method_or_tool NewServer
                      (call_request (js "{'name': 'non_existent_tool'}")))
               "non_existent_tool"); [reflexivity|].
    split; [reflexivity|]. eexists. split; [vm_compute; reflexivity|].
    split; reflexivity.
Defined.

(** C5, as stated, fails: the data field does not tell the two cases
    apart.  The unknown method "x" and the call of the unregistered tool
    "x" produce the same code and the same data; the responses differ by
    the message. *)
Lemma MethodNotFound_not_distinguished_by_data :
  let r1 := HandleRequest NewServer (method_request "x") in
  let r2 := HandleRequest NewServer (call_request (js "{'name': 'x'}")) in
  unknown_method (method_request "x")
  /\ unknown_tool NewServer (call_request (js "{'name': 'x'}")) "x"
  /\ Code <$> Error r1 = Code <$> Error r2
  /\ Data <$> Error r1 = Data <$> Error r2
  /\ Message <$> Error r1 <> Message <$> Error r2.
Proof.
  repeat split; try discriminate; try reflexivity.
  eexists. split; [vm_compute; reflexivity|]. split; reflexivity.
Qed.

(** C6: a [tools/call] whose params do not parse into the
    [{name, arguments}] shape is answered with the code InvalidParams
    (-32602), and no result is populated. *)
Theorem tools_call_malformed_params (s : Server) (req : MCPRequest) (err : json.error) :
  Method req = "tools/call" ->
  json.Unmarshal_CallToolParams (Params req) = inr err ->
  Code <$> Error (HandleRequest s req) = Some (-32602)
  /\ Result (HandleRequest s req) = None.
Proof.
  intros Hm Hp. unfold HandleRequest. by rewrite Hm, Hp.
Qed.

Lemma tools_call_malformed_params_witness :
  Code <$> Error (HandleRequest NewServer (call_request "invalid json")) = Some (-32602)
  /\ Result (HandleRequest NewServer (call_request "invalid json")) = None.
Proof.
  apply (tools_call_malformed_params NewServer (call_request "invalid json")
           "invalid character in JSON input").
  - reflexivity.
  - vm_compute. reflexivity.
Defined.

End Dispatch.

(** ** The stdio transport *)
Section Stdio.

Lemma Marshal_MCPResponse_total (response : MCPResponse) :
  exists text, json.Marshal_MCPResponse response = inl text.
Proof. unfold json.Marshal_MCPResponse. by eexists. Qed.







End Stdio.

(** ** The plain HTTP transport *)
Section PlainHTTP.

Import HTTPTransport.

Lemma writeJSONResponse_spec (w : http.ResponseWriter) (response : MCPResponse)
  (code : Z) :
  http.Status w = None -> http.Written w = "" ->
  json_response (writeJSONResponse w response code) response code.
Proof.
  intros Hs Hw. destruct (Marshal_MCPResponse_total response) as [text Ht].
  unfold json_response, writeJSONResponse, Encode. rewrite Ht.
  unfold http.StatusCode, http.Write, http.WriteHeader, http.Set_. simpl.
  rewrite Hs. simpl. rewrite Hw. split; [done|]. split.
  - by rewrite lookup_insert_eq.
  - by exists text.
Qed.

(** The CORS layer hands a request other than OPTIONS to the handler, on
    a writer with no status and nothing written. *)
Lemma corsMiddleware_passes (tr : t) (handler : http.Handler) (r : http.Request) :
  http.Method r <> "OPTIONS" ->
  exists w, corsMiddleware tr handler http.NewResponseWriter r = handler w r
            /\ http.Status w = None /\ http.Written w = ""
            /\ http.IsFlusher w = true.
Proof.
  intros Hm%String.eqb_neq. unfold corsMiddleware. rewrite Hm.
  destruct (CORSEnabled (config tr)); [|by eexists].
  eexists. split; [reflexivity|]. by destruct (isOriginAllowed tr _).
Qed.

(** C7: a POST on [/mcp] of the plain transport whose body dispatches
    (JSON content type, readable body that parses as a request) is
    answered with the encoded response and with status 400 when the
    response's error code is InvalidRequest or InvalidParams, 404 when it
    is MethodNotFound, 500 when it is InternalError, and 200 when the
    response has no error. *)
Theorem plain_http_status_mapping
  (tr : t) (r : http.Request) (body : string) (mcpReq : MCPRequest) :
  http.Method r = "POST" ->
  Contains (http.Get (http.ReqHeader r) "Content-Type") "application/json" = true ->
  http.Body r = Some body ->
  json.Unmarshal_MCPRequest body = inl mcpReq ->
  let response := HandleRequest (mcpServer tr) mcpReq in
  let w := serveMCP tr r in
  json_response w response (http.StatusCode w)
  /\ (Error response = None -> http.StatusCode w = 200)
  /\ (forall e, Error response = Some e ->
        (Code e = ErrorCodeInvalidRequest \/ Code e = ErrorCodeInvalidParams ->
         http.StatusCode w = 400)
        /\ (Code e = ErrorCodeMethodNotFound -> http.StatusCode w = 404)
        /\ (Code e = ErrorCodeInternalError -> http.StatusCode w = 500)).
Proof.
  intros Hm Hct Hb Hreq response w.
  destruct (corsMiddleware_passes tr (handleMCP tr) r) as (w0 & Hw & Hs & Hwr & _).
  { rewrite Hm. discriminate. }
  subst w. unfold serveMCP. rewrite Hw. unfold handleMCP.
  rewrite Hm, Hct, Hb, Hreq. simpl negb. cbv iota.
  fold response.
  set (code := match Error response with Some _ => _ | None => _ end).
  pose proof (writeJSONResponse_spec w0 response code Hs Hwr) as Hj.
  destruct Hj as (Hcode & Hj). rewrite Hcode.
  split; [by split|]. subst code. split.
  - by intros ->.
  - intros e ->. split; [intros [->| ->]; reflexivity|].
    split; intros ->; reflexivity.
Qed.

Lemma plain_http_status_mapping_witness :
  let tr := NewHTTPTransport NewServer None in
  let r := post [("Content-Type", "application/json")]
             (js "{'jsonrpc':'2.0','id':1,'method':'tools/call','params':{'name':'nope'}}") in
  http.StatusCode (serveMCP tr r) = 404.
Proof.
  intros tr r.
  destruct (plain_http_status_mapping tr r
              (js "{'jsonrpc':'2.0','id':1,'method':'tools/call','params':{'name':'nope'}}")
              {| JSONRPC := "2.0"; ID := VNumber "1"; Method := "tools/call";
                 Params := (js "{'name':'nope'}") |}
              eq_refl eq_refl eq_refl)
    as (_ & _ & He).
  - vm_compute. reflexivity.
  - eapply He; [vm_compute; reflexivity|reflexivity].
Defined.

End PlainHTTP.

(** ** The streamable HTTP transport *)
Section StreamableHTTP.

Import StreamableHTTPTransport.

Lemma append_assoc (a b c : string) : (a ++ b) ++ c = a ++ (b ++ c).
Proof.
  induction a as [|x a IH]; [done|].
  change (String x ((a ++ b) ++ c) = String x (a ++ b ++ c)). by f_equal.
Qed.

Lemma Error_status (w : http.ResponseWriter) (msg : string) (code : Z) :
  http.Status w = None ->
  http.StatusCode (http.Error w msg code) = code
  /\ http.RespHeader (http.Error w msg code) !! "Content-Type"
     = Some "text/plain; charset=utf-8"
  /\ http.Written (http.Error w msg code) = http.Written w ++ msg ++ http.nl.
Proof.
  intros Hs. unfold http.Error, http.StatusCode, http.Write, http.WriteHeader.
  simpl. rewrite Hs. simpl. split; [done|]. split; [|done].
  rewrite lookup_insert_ne by done. by rewrite lookup_insert_eq.
Qed.

Lemma cors_writer_fresh (tr : t) (r : http.Request) :
  http.Status (cors_writer tr r) = None
  /\ http.Written (cors_writer tr r) = ""
  /\ http.IsFlusher (cors_writer tr r) = true.
Proof.
  unfold cors_writer. destruct (CORSEnabled (config tr)); [|done].
  by destruct (isOriginAllowed tr _).
Qed.

Lemma serveMCP_cases (tr : t) (wd : World) (r : http.Request) :
  serveMCP tr wd r =
    if CORSEnabled (config tr) && String.eqb (http.Method r) "OPTIONS"
    then (tr, wd, http.WriteHeader (cors_writer tr r) http.StatusOK)
    else handleMCP tr wd (cors_writer tr r) r.
Proof.
  unfold serveMCP, corsMiddleware, cors_writer.
  destruct (CORSEnabled (config tr)); [|done]. simpl.
  by destruct (String.eqb (http.Method r) "OPTIONS").
Qed.

(** C3 (amended): a request on [/mcp] without the MCP-Protocol-Version
    header is answered with status 400, whatever its method and body and
    before anything else is processed, except that with CORS enabled an
    OPTIONS request is answered 200 by the CORS layer. *)
Theorem missing_protocol_version_status
  (tr : t) (wd : World) (r : http.Request) :
  http.Get (http.ReqHeader r) "MCP-Protocol-Version" = "" ->
  let '(tr', wd', w) := serveMCP tr wd r in
  tr' = tr /\ wd' = wd
  /\ http.StatusCode w
     = if CORSEnabled (config tr) && String.eqb (http.Method r) "OPTIONS"
       then 200 else 400.
Proof.
  intros Hv. rewrite serveMCP_cases.
  destruct (cors_writer_fresh tr r) as (Hs & _ & _).
  destruct (CORSEnabled (config tr) && String.eqb (http.Method r) "OPTIONS").
  - split; [done|]. split; [done|].
    unfold http.StatusCode, http.WriteHeader. by rewrite Hs.
  - unfold handleMCP. rewrite Hv. simpl String.eqb. cbv iota.
    split; [done|]. split; [done|]. by apply Error_status.
Qed.

Lemma missing_protocol_version_witness :
  http.StatusCode
    (snd (serveMCP (NewStreamableHTTPTransport NewServer None) quiet_world
            (request "DELETE" [("Accept", "application/json")] "anything")))
  = 400.
Proof.
  pose proof (missing_protocol_version_status
                (NewStreamableHTTPTransport NewServer None) quiet_world
                (request "DELETE" [("Accept", "application/json")] "anything")
                eq_refl) as H.
  destruct (serveMCP _ _ _) as [[tr' wd'] w]. simpl.
  destruct H as (_ & _ & ->). reflexivity.
Defined.

(** C3, as stated, fails: with the default configuration (CORS enabled)
    an OPTIONS request without the header is answered 200. *)
Lemma options_without_protocol_version :
  let r := request "OPTIONS" [("Origin", "http://x.test")] "" in
  http.Get (http.ReqHeader r) "MCP-Protocol-Version" = ""
  /\ http.StatusCode
       (snd (serveMCP (NewStreamableHTTPTransport NewServer None) quiet_world r))
     = 200.
Proof. split; reflexivity. Qed.

(** **** Sessions *)

Lemma Sub_within (now lastSeen timeout : Z) :
  time.minDuration <= timeout -> now - lastSeen < timeout ->
  (time.Sub now lastSeen >? timeout) = false.
Proof.
  intros Hd Hlt. unfold time.Sub.
  destruct (Z.ltb_spec (now - lastSeen) time.minDuration); [lia|].
  destruct (Z.gtb_spec (now - lastSeen) time.maxDuration); lia.
Qed.

Lemma Sub_beyond (now lastSeen timeout : Z) :
  timeout < time.maxDuration -> now - lastSeen > timeout ->
  (time.Sub now lastSeen >? timeout) = true.
Proof.
  intros Hd Hgt. unfold time.Sub.
  destruct (Z.ltb_spec (now - lastSeen) time.minDuration); [lia|].
  destruct (Z.gtb_spec (now - lastSeen) time.maxDuration); lia.
Qed.

(** The session gate of [handleMCP]: what the request handlers start from
    when the session header names [sessionID]. *)
Lemma handleMCP_session_rejected (tr : t) (wd : World) (w : http.ResponseWriter)
  (r : http.Request) :
  http.Get (http.ReqHeader r) "MCP-Protocol-Version" <> "" ->
  http.Get (http.ReqHeader r) "Mcp-Session-Id" <> "" ->
  fst (isValidSession tr wd (http.Get (http.ReqHeader r) "Mcp-Session-Id")) = false ->
  handleMCP tr wd w r
  = (tr, snd (isValidSession tr wd (http.Get (http.ReqHeader r) "Mcp-Session-Id")),
     http.Error w "Invalid or expired session" http.StatusUnauthorized).
Proof.
  intros Hv%String.eqb_neq Hs%String.eqb_neq Hval. unfold handleMCP.
  rewrite Hv, Hs. simpl negb. cbv iota.
  destruct (isValidSession tr wd _) as [valid wd']. simpl in Hval. subst valid.
  reflexivity.
Qed.

Lemma handleGET_keeps_transport (tr : t) (wd : World) (w : http.ResponseWriter)
  (r : http.Request) (sessionID : string) :
  sessionID <> "" ->
  fst (fst (handleGET tr wd w r sessionID)) = tr.
Proof.
  intros Hs%String.eqb_neq. unfold handleGET.
  destruct (negb (Contains _ _)); [done|]. rewrite Hs.
  by destruct (setupSSEStream wd w r sessionID).
Qed.

Lemma handleMCP_session_touched (tr : t) (wd : World) (w : http.ResponseWriter)
  (r : http.Request) :
  http.Get (http.ReqHeader r) "MCP-Protocol-Version" <> "" ->
  http.Get (http.ReqHeader r) "Mcp-Session-Id" <> "" ->
  fst (isValidSession tr wd (http.Get (http.ReqHeader r) "Mcp-Session-Id")) = true ->
  fst (fst (handleMCP tr wd w r))
  = fst (updateSessionActivity tr
           (snd (isValidSession tr wd (http.Get (http.ReqHeader r) "Mcp-Session-Id")))
           (http.Get (http.ReqHeader r) "Mcp-Session-Id")).
Proof.
  intros Hv%String.eqb_neq Hs Hval. unfold handleMCP.
  rewrite Hv. pose proof Hs as Hs'%String.eqb_neq. rewrite Hs'.
  simpl negb. cbv iota.
  destruct (isValidSession tr wd _) as [valid wd']. simpl in Hval. subst valid.
  simpl negb. cbv iota. simpl snd.
  destruct (updateSessionActivity tr wd' _) as [tr' wd'']. simpl negb. cbv iota.
  destruct (String.eqb (http.Method r) http.MethodPost).
  - by destruct (handlePOST tr' wd'' w r _).
  - destruct (String.eqb (http.Method r) http.MethodGet); [|done].
    simpl fst. by apply handleGET_keeps_transport.
Qed.

Lemma isValidSession_active (tr : t) (wd : World) (sessionID : string)
  (session : Session) :
  sessions tr !! sessionID = Some session -> Active session = true ->
  isValidSession tr wd sessionID
  = (negb (time.Sub (clock wd (readings wd)) (LastSeen session)
             >? SessionTimeout (config tr)),
     snd (time.Now wd)).
Proof.
  intros Hs Ha. unfold isValidSession. rewrite Hs, Ha. simpl.
  by destruct (_ >? _).
Qed.

(** The reaper uses the same strict bound as the validity check: a wake-up
    at [now] keeps exactly the sessions with [now - LastSeen] not above the
    timeout. *)
Lemma cleanupExpiredSessions_tick_keeps (tr : t) (now : Z) (sessionID : string)
  (session : Session) :
  sessions (cleanupExpiredSessions_tick tr now) !! sessionID = Some session
  <-> sessions tr !! sessionID = Some session
      /\ (time.Sub now (LastSeen session) >? SessionTimeout (config tr)) = false.
Proof.
  unfold cleanupExpiredSessions_tick. simpl. by rewrite map_lookup_filter_Some.
Qed.

(** C2 (amended): take an active session with last-seen timestamp [L] and
    a configured timeout [D] (a [Duration] below the largest one).  A
    request whose validation check reads the clock at [T'] with
    [T' - L < D] passes the check, and the touch that follows sets
    [LastSeen] to the clock reading it takes (the next reading; [T']
    itself when the clock has not moved).  A request whose check reads
    [T''] with [T'' - L > D] fails the check: it is answered 401 and the
    store is left as it was. *)
Theorem session_validity_window
  (tr : t) (wd : World) (w : http.ResponseWriter) (r : http.Request)
  (sessionID : string) (session : Session) :
  sessions tr !! sessionID = Some session ->
  Active session = true ->
  time.minDuration <= SessionTimeout (config tr) < time.maxDuration ->
  http.Get (http.ReqHeader r) "MCP-Protocol-Version" <> "" ->
  http.Get (http.ReqHeader r) "Mcp-Session-Id" = sessionID ->
  sessionID <> "" ->
  http.Status w = None ->
  let L := LastSeen session in
  let D := SessionTimeout (config tr) in
  let T := clock wd (readings wd) in
  let T_touch := clock wd (S (readings wd)) in
  let '(tr', wd', w') := handleMCP tr wd w r in
  (T - L < D ->
     fst (isValidSession tr wd sessionID) = true
     /\ sessions tr' !! sessionID
        = Some {| SessionID := SessionID session; CreatedAt := CreatedAt session;
                  LastSeen := T_touch; Active := true |}
     /\ (T_touch = T -> LastSeen <$> sessions tr' !! sessionID = Some T))
  /\ (T - L > D ->
        fst (isValidSession tr wd sessionID) = false
        /\ tr' = tr
        /\ http.StatusCode w' = 401).
Proof.
  intros Hs Ha [Hmin Hmax] Hv Hid Hne Hw L D T T_touch.
  subst L D T T_touch.
  pose proof (isValidSession_active tr wd sessionID session Hs Ha) as Hvalid.
  destruct (handleMCP tr wd w r) as [[tr' wd'] w'] eqn:Hh. split.
  - intros Hlt.
    rewrite (Sub_within _ _ _ Hmin Hlt) in Hvalid.
    assert (Htr : tr' = fst (updateSessionActivity tr (snd (time.Now wd)) sessionID)).
    { pose proof (handleMCP_session_touched tr wd w r Hv) as Ht.
      rewrite Hid, Hvalid, Hh in Ht. by apply Ht. }
    split; [by rewrite Hvalid|].
    assert (Hl : sessions tr' !! sessionID
                 = Some {| SessionID := SessionID session;
                           CreatedAt := CreatedAt session;
                           LastSeen := clock wd (S (readings wd));
                           Active := true |}).
    { rewrite Htr. unfold updateSessionActivity. rewrite Hs. simpl.
      by rewrite lookup_insert_eq, Ha. }
    split; [done|]. intros <-. by rewrite Hl.
  - intros Hgt.
    rewrite (Sub_beyond _ _ _ Hmax Hgt) in Hvalid.
    split; [by rewrite Hvalid|].
    pose proof (handleMCP_session_rejected tr wd w r Hv) as Hr.
    rewrite Hid, Hvalid, Hh in Hr.
    injection (Hr Hne eq_refl) as -> _ ->.
    split; [done|]. by apply Error_status.
Qed.

Lemma session_validity_window_witness :
  fst (isValidSession (one_session 0) (world_at (4 * time.Minute)) "0a0b") = true
  /\ fst (isValidSession (one_session 0) (world_at (6 * time.Minute)) "0a0b") = false.
Proof.
  split.
  - pose proof (session_validity_window (one_session 0) (world_at (4 * time.Minute))
                  http.NewResponseWriter session_request "0a0b"
                  {| SessionID := "0a0b"; CreatedAt := 0; LastSeen := 0;
                     Active := true |}
                  eq_refl eq_refl) as H.
    destruct (handleMCP _ _ _ _) as [[tr' wd'] w'].
    apply H; [vm_compute; split; [discriminate|reflexivity]
             |discriminate|reflexivity|discriminate|reflexivity|vm_compute; reflexivity].
  - pose proof (session_validity_window (one_session 0) (world_at (6 * time.Minute))
                  http.NewResponseWriter session_request "0a0b"
                  {| SessionID := "0a0b"; CreatedAt := 0; LastSeen := 0;
                     Active := true |}
                  eq_refl eq_refl) as H.
    destruct (handleMCP _ _ _ _) as [[tr' wd'] w'].
    apply H; [vm_compute; split; [discriminate|reflexivity]
             |discriminate|reflexivity|discriminate|reflexivity|vm_compute; reflexivity].
Defined.

(** C2, as stated, fails at the boundary: a check exactly [D] after the
    last touch ([T'' - L = D], so [T'' - L >= D]) still succeeds. *)
Lemma session_valid_at_timeout :
  let tr := one_session 0 in
  let wd := world_at (5 * time.Minute) in
  clock wd (readings wd) - 0 >= SessionTimeout (config tr)
  /\ fst (isValidSession tr wd "0a0b") = true
  /\ http.StatusCode (snd (serveMCP tr wd session_request)) = 200.
Proof. repeat split; vm_compute; congruence. Qed.

(** **** POST framing *)

Lemma updateSessionActivity_mcpServer (tr : t) (wd : World) (sessionID : string) :
  mcpServer (fst (updateSessionActivity tr wd sessionID)) = mcpServer tr.
Proof.
  unfold updateSessionActivity. by destruct (sessions tr !! sessionID).
Qed.

(** Past the gates, the response writer is the one [handlePOST] returns,
    for the same dispatcher. *)
Lemma serveMCP_reaches_handlePOST (tr : t) (wd : World) (r : http.Request) :
  reaches_parsing tr wd r ->
  exists tr' wd',
    mcpServer tr' = mcpServer tr
    /\ snd (serveMCP tr wd r)
       = snd (handlePOST tr' wd' (cors_writer tr r) r
                (http.Get (http.ReqHeader r) "Mcp-Session-Id")).
Proof.
  intros (Hm & Hv%String.eqb_neq & Hsess & _).
  rewrite serveMCP_cases, Hm, andb_false_r. unfold handleMCP. rewrite Hv, Hm.
  simpl String.eqb. cbv iota.
  destruct (String.eqb_spec (http.Get (http.ReqHeader r) "Mcp-Session-Id") "")
    as [He|Hne].
  - simpl negb. cbv iota. exists tr, wd. split; [done|]. rewrite He.
    by destruct (handlePOST tr wd _ r "").
  - destruct Hsess as [He|Hval]; [done|]. simpl negb. cbv iota.
    destruct (isValidSession tr wd _) as [valid wd1]. simpl in Hval. subst valid.
    simpl negb. cbv iota.
    pose proof (updateSessionActivity_mcpServer tr wd1
                  (http.Get (http.ReqHeader r) "Mcp-Session-Id")) as Hsrv.
    destruct (updateSessionActivity tr wd1 _) as [tr2 wd2]. simpl in Hsrv.
    simpl negb. cbv iota. exists tr2, wd2. split; [done|].
    by destruct (handlePOST tr2 wd2 _ r _).
Qed.

Lemma streamable_writeJSONResponse_spec (w : http.ResponseWriter)
  (response : MCPResponse) :
  http.Status w = None -> http.Written w = "" ->
  json_response (writeJSONResponse w response) response
    (http.StatusCode (writeJSONResponse w response)).
Proof.
  intros Hs Hw. destruct (Marshal_MCPResponse_total response) as [text Ht].
  unfold json_response, writeJSONResponse, Encode. rewrite Ht.
  split; [done|]. split.
  - unfold http.Write, http.WriteHeader, http.Set_. simpl. rewrite Hs. simpl.
    by rewrite lookup_insert_eq.
  - exists text. split; [done|].
    unfold http.Write, http.WriteHeader, http.Set_. simpl. rewrite Hs. simpl.
    by rewrite Hw.
Qed.


Lemma serveMCP_unparseable (tr : t) (wd : World) (r : http.Request)
  (body : string) (err : json.error) :
  reaches_parsing tr wd r ->
  http.Body r = Some body ->
  json.Unmarshal_MCPRequest body = inr err ->
  json_response (snd (serveMCP tr wd r)) (invalid_request_response VNil err) 400.
Proof.
  intros Hreach Hb Herr.
  destruct (serveMCP_reaches_handlePOST tr wd r Hreach) as (tr' & wd' & Hsrv & Hw).
  destruct Hreach as (_ & _ & _ & Hacc).
  destruct (cors_writer_fresh tr r) as (Hs0 & Hw0 & Hf0).
  rewrite Hw. unfold handlePOST.
  set (accept := http.Get (http.ReqHeader r) "Accept") in *.
  assert (Hgate : negb (Contains accept "application/json")
                  && negb (Contains accept "text/event-stream") = false)
    by (by destruct (Contains accept "application/json"),
             (Contains accept "text/event-stream")).
  rewrite Hgate, Hb, Herr. simpl snd. unfold writeErrorResponse.
  pose proof (streamable_writeJSONResponse_spec _
                (invalid_request_response VNil err) Hs0 Hw0) as Hj.
  unfold invalid_request_response in *.
  destruct Hj as (_ & Hct & Htext). split; [|by split].
  unfold writeJSONResponse, Encode, json.Marshal_MCPResponse,
    http.StatusCode, http.Write, http.WriteHeader. simpl. by rewrite Hs0.
Qed.




(** **** The id of a parse-failure response, on both HTTP transports *)

Lemma plain_serveMCP_unparseable (tr : HTTPTransport.t) (r : http.Request)
  (body : string) (err : json.error) :
  http.Method r = "POST" ->
  Contains (http.Get (http.ReqHeader r) "Content-Type") "application/json" = true ->
  http.Body r = Some body ->
  json.Unmarshal_MCPRequest body = inr err ->
  json_response (HTTPTransport.serveMCP tr r)
    (invalid_request_response (recovered_id body) err) 400.
Proof.
  intros Hm Hct Hb Herr.
  destruct (corsMiddleware_passes tr (HTTPTransport.handleMCP tr) r)
    as (w0 & Hw & Hs & Hwr & _).
  { rewrite Hm. discriminate. }
  unfold HTTPTransport.serveMCP. rewrite Hw. unfold HTTPTransport.handleMCP.
  rewrite Hm, Hct, Hb, Herr. simpl negb. cbv iota.
  pose proof (writeJSONResponse_spec w0
                (invalid_request_response (recovered_id body) err)
                http.StatusBadRequest Hs Hwr) as Hj.
  unfold invalid_request_response, recovered_id in *.
  destruct (json.Unmarshal_map body) as [rawMap|]; [|done].
  by destruct (map_get "id" (default [] rawMap)).
Qed.

(** C10: for a POST whose body does not parse as a request, the
    InvalidRequest response of the streamable transport carries the null
    id, also when the raw body is a JSON object with an [id] member; the
    plain transport answers the same body with that member as the id. *)
Theorem parse_failure_id
  (tr : t) (wd : World) (plain : HTTPTransport.t) (r : http.Request)
  (body : string) (err : json.error) :
  http.Body r = Some body ->
  json.Unmarshal_MCPRequest body = inr err ->
  (reaches_parsing tr wd r ->
     json_response (snd (serveMCP tr wd r)) (invalid_request_response VNil err) 400)
  /\ (http.Method r = "POST" ->
      Contains (http.Get (http.ReqHeader r) "Content-Type") "application/json" = true ->
      forall rawMap id,
        json.Unmarshal_map body = inl rawMap ->
        map_get "id" (default [] rawMap) = Some id ->
        json_response (HTTPTransport.serveMCP plain r)
          (invalid_request_response id err) 400).
Proof.
  intros Hb Herr. split.
  - intros Hreach. by eapply serveMCP_unparseable.
  - intros Hm Hct rawMap id Hraw Hid.
    pose proof (plain_serveMCP_unparseable plain r body err Hm Hct Hb Herr) as Hj.
    unfold recovered_id in Hj. by rewrite Hraw, Hid in Hj.
Qed.

Lemma parse_failure_id_witness :
  let body := (js "{'jsonrpc':'2.0','id':7,'method':5}") in
  let err :=
    "json: cannot unmarshal number into Go struct field MCPRequest.method of type string" in
  let r := request "POST" [("MCP-Protocol-Version", "2024-11-05");
                           ("Accept", "application/json");
                           ("Content-Type", "application/json")] body in
  json_response (snd (serveMCP math_transport quiet_world r))
    (invalid_request_response VNil err) 400
  /\ json_response (HTTPTransport.serveMCP
                      (HTTPTransport.NewHTTPTransport NewServer None) r)
       (invalid_request_response (VNumber "7") err) 400.
Proof.
  intros body err r.
  destruct (parse_failure_id math_transport quiet_world
              (HTTPTransport.NewHTTPTransport NewServer None) r body err
              eq_refl) as [Hs Hp].
  - vm_compute. reflexivity.
  - split.
    + apply Hs. split; [reflexivity|]. split; [discriminate|].
      split; [by left|reflexivity].
    + eapply (Hp eq_refl eq_refl); vm_compute; reflexivity.
Defined.

End StreamableHTTP.

(** * Further properties of the dispatch engine *)
Section DispatchMore.

(** Every response is the envelope around the request's id, with either a
    result or one of three string-carrying errors. *)
Lemma HandleRequest_shape (s : Server) (req : MCPRequest) :
  exists r e,
    HandleRequest s req
    = {| RespJSONRPC := "2.0"; RespID := ID req; Result := r; Error := e |}
    /\ ((is_Some r /\ e = None)
        \/ (r = None
            /\ exists code msg data,
                e = Some {| Code := code; Message := msg; Data := VString data |}
                /\ (code = ErrorCodeMethodNotFound \/ code = ErrorCodeInvalidParams
                    \/ code = ErrorCodeInternalError))).
Proof.
  unfold HandleRequest, with_Result, with_Error.
  destruct (String.eqb (Method req) "initialize").
  { eexists _, _. split; [reflexivity|]. left. by split; [eexists|]. }
  destruct (String.eqb (Method req) "tools/list").
  { eexists _, _. split; [reflexivity|]. left. by split; [eexists|]. }
  destruct (String.eqb (Method req) "tools/call").
  - destruct (json.Unmarshal_CallToolParams (Params req)) as [params|err].
    + destruct (_ !! _) as [handler|].
      * destruct (handler (Arguments params)) as [result [err|]].
        -- eexists _, _. split; [reflexivity|]. right. split; [done|].
           eexists _, _, _. split; [reflexivity|]. auto.
        -- eexists _, _. split; [reflexivity|]. left. by split; [eexists|].
      * eexists _, _. split; [reflexivity|]. right. split; [done|].
        eexists _, _, _. split; [reflexivity|]. auto.
    + eexists _, _. split; [reflexivity|]. right. split; [done|].
      eexists _, _, _. split; [reflexivity|]. auto.
  - eexists _, _. split; [reflexivity|]. right. split; [done|].
    eexists _, _, _. split; [reflexivity|]. auto.
Qed.

(** X1: whatever the method, the params and the registry, the response
    carries the version "2.0" and the id of the request, unchanged. *)
Theorem HandleRequest_echoes_id (s : Server) (req : MCPRequest) :
  RespJSONRPC (HandleRequest s req) = "2.0"
  /\ RespID (HandleRequest s req) = ID req.
Proof.
  destruct (HandleRequest_shape s req) as (r & e & -> & _). by split.
Qed.

(** X2: every response has exactly one of [Result] and [Error]. *)
Theorem HandleRequest_result_xor_error (s : Server) (req : MCPRequest) :
  (is_Some (Result (HandleRequest s req)) /\ Error (HandleRequest s req) = None)
  \/ (Result (HandleRequest s req) = None /\ is_Some (Error (HandleRequest s req))).
Proof.
  destruct (HandleRequest_shape s req) as (r & e & -> & [[Hr He]|[Hr He]]); simpl.
  - by left.
  - right. split; [done|]. destruct He as (? & ? & ? & -> & _). by eexists.
Qed.

(** X3: an error of the dispatcher has the code MethodNotFound,
    InvalidParams or InternalError, never InvalidRequest, and its data is a
    string. *)
Theorem HandleRequest_error_codes (s : Server) (req : MCPRequest) (e : MCPError) :
  Error (HandleRequest s req) = Some e ->
  (Code e = -32601 \/ Code e = -32602 \/ Code e = -32603)
  /\ Code e <> ErrorCodeInvalidRequest
  /\ exists data, Data e = VString data.
Proof.
  destruct (HandleRequest_shape s req) as (r & e' & -> & [[_ He]|[_ He]]); simpl.
  - by rewrite He.
  - destruct He as (code & msg & data & -> & Hc). intros [= <-]. simpl.
    split; [done|]. split; [|by eexists].
    by destruct Hc as [-> | [-> | ->]].
Qed.

Lemma HandleRequest_error_codes_witness :
  exists e, Error (HandleRequest NewServer (call_request "invalid json")) = Some e
            /\ Code e = -32602.
Proof.
  eexists. split; [reflexivity|].
  destruct (HandleRequest_error_codes NewServer (call_request "invalid json") _ eq_refl)
    as ([H | [H | H]] & _); [discriminate H|exact H|discriminate H].
Defined.

(** X4: [initialize] always succeeds with the same capability descriptor:
    the response depends on the request's id only, not on the registry, the
    params or the number of earlier calls. *)
Theorem initialize_fixed_descriptor (s s' : Server) (req req' : MCPRequest) :
  Method req = "initialize" -> Method req' = "initialize" -> ID req' = ID req ->
  HandleRequest s' req' = HandleRequest s req
  /\ Error (HandleRequest s req) = None
  /\ is_Some (Result (HandleRequest s req)).
Proof.
  intros Hm Hm' Hid. unfold HandleRequest. rewrite Hm, Hm', Hid. simpl.
  split; [done|]. split; [done|]. by eexists.
Qed.

Lemma initialize_fixed_descriptor_witness :
  HandleRequest
    (RegisterTool NewServer "basic_math" "Basic math operations" None custom_handler)
    {| JSONRPC := "1.0"; ID := VNumber "1"; Method := "initialize";
       Params := "not json" |}
  = HandleRequest NewServer (method_request "initialize").
Proof.
  apply (initialize_fixed_descriptor NewServer _ (method_request "initialize"));
    reflexivity.
Defined.

Lemma HandleRequest_call (s : Server) (req : MCPRequest) (params : CallToolParams)
  (h : ToolHandler) :
  Method req = "tools/call" ->
  json.Unmarshal_CallToolParams (Params req) = inl params ->
  tools s !! ToolName params = Some h ->
  HandleRequest s req = call_outcome req h (Arguments params).
Proof.
  intros Hm Hp Hh. unfold HandleRequest, call_outcome. rewrite Hm, Hp, Hh. simpl.
  by destruct (h (Arguments params)) as [result [err|]].
Qed.

(** X5: the last registration of a name wins.  After
    [RegisterTool(name, _, _, h)], a [tools/call] of [name] runs [h] on the
    call's arguments, whatever was registered under [name] before.  A
    failure of [h] becomes an InternalError carrying the failure's message.
    A success becomes a single "text" content block: its text is the JSON
    encoding of the result, or the empty string when the result cannot be
    encoded (the encoder's error is dropped and the call still succeeds). *)
Theorem last_registration_wins
  (s : Server) (name description : string) (inputSchema : gomap) (h : ToolHandler)
  (req : MCPRequest) (params : CallToolParams) :
  Method req = "tools/call" ->
  json.Unmarshal_CallToolParams (Params req) = inl params ->
  ToolName params = name ->
  let response := HandleRequest (RegisterTool s name description inputSchema h) req in
  response = call_outcome req h (Arguments params)
  /\ (forall result err,
        h (Arguments params) = (result, Some err) ->
        Result response = None
        /\ Error response
           = Some {| Code := -32603; Message := "Tool execution failed";
                     Data := VString err |})
  /\ (forall v,
        h (Arguments params) = (Encodable v, None) ->
        Error response = None
        /\ Result response
           = Some (ResultCallTool
                     {| Content := [ {| Type_ := "text";
                                        Text := json.Marshal_value v |} ] |}))
  /\ (forall what,
        h (Arguments params) = (Unsupported what, None) ->
        Error response = None
        /\ Result response
           = Some (ResultCallTool
                     {| Content := [ {| Type_ := "text"; Text := "" |} ] |})).
Proof.
  intros Hm Hp Hn response.
  assert (Hr : response = call_outcome req h (Arguments params)).
  { apply HandleRequest_call; [done..|].
    unfold RegisterTool. simpl. by rewrite Hn, lookup_insert_eq. }
  split; [done|]. rewrite Hr. unfold call_outcome.
  split; [|split].
  - by intros result err ->.
  - by intros v ->.
  - by intros what ->.
Qed.

Lemma last_registration_wins_witness :
  Error (HandleRequest
           (RegisterTool
              (RegisterTool NewServer "basic_math" "first" None custom_handler)
              "basic_math" "second" None failing_handler)
           (call_request (js "{'name':'basic_math','arguments':{'operation':'divide'}}")))
  = Some {| Code := -32603; Message := "Tool execution failed";
            Data := VString "division by zero" |}
  /\ Result (HandleRequest
               (RegisterTool
                  (RegisterTool NewServer "basic_math" "first" None custom_handler)
                  "basic_math" "second" None overflowing_handler)
               (call_request (js "{'name':'basic_math'}")))
     = Some (ResultCallTool {| Content := [ {| Type_ := "text"; Text := "" |} ] |}).
Proof.
  split.
  - destruct (last_registration_wins
                (RegisterTool NewServer "basic_math" "first" None custom_handler)
                "basic_math" "second" None failing_handler
                (call_request
                   (js "{'name':'basic_math','arguments':{'operation':'divide'}}"))
                {| ToolName := "basic_math";
                   Arguments := Some [("operation", VString "divide")] |}
                eq_refl) as (_ & Hfail & _);
      [vm_compute; reflexivity|reflexivity|].
    by destruct (Hfail (Encodable VNil) "division by zero" eq_refl).
  - destruct (last_registration_wins
                (RegisterTool NewServer "basic_math" "first" None custom_handler)
                "basic_math" "second" None overflowing_handler
                (call_request (js "{'name':'basic_math'}"))
                {| ToolName := "basic_math"; Arguments := None |}
                eq_refl) as (_ & _ & _ & Hinf);
      [vm_compute; reflexivity|reflexivity|].
    by destruct (Hinf "+Inf" eq_refl).
Defined.

(** X6: registering a tool changes nothing for the other tools: every
    request other than [tools/list] that does not call the registered name
    is answered as before. *)
Theorem RegisterTool_frame
  (s : Server) (name description : string) (inputSchema : gomap) (h : ToolHandler)
  (req : MCPRequest) :
  Method req <> "tools/list" ->
  (forall params,
      Method req = "tools/call" ->
      json.Unmarshal_CallToolParams (Params req) = inl params ->
      ToolName params <> name) ->
  HandleRequest (RegisterTool s name description inputSchema h) req
  = HandleRequest s req.
Proof.
  intros Hl%String.eqb_neq Hother. unfold HandleRequest. rewrite Hl.
  destruct (String.eqb (Method req) "initialize"); [done|].
  destruct (String.eqb_spec (Method req) "tools/call") as [Hc|]; [|done].
  destruct (json.Unmarshal_CallToolParams (Params req)) as [params|err] eqn:Hp; [|done].
  unfold RegisterTool. simpl.
  rewrite lookup_insert_ne; [done|]. intros Heq. by eapply Hother.
Qed.

Lemma RegisterTool_frame_witness :
  HandleRequest
    (RegisterTool
       (RegisterTool NewServer "basic_math" "Basic math operations" None custom_handler)
       "statistics" "Statistical analysis" None failing_handler)
    (call_request (js "{'name':'basic_math'}"))
  = HandleRequest
      (RegisterTool NewServer "basic_math" "Basic math operations" None custom_handler)
      (call_request (js "{'name':'basic_math'}")).
Proof.
  apply RegisterTool_frame; [discriminate|].
  intros params _ Hp. vm_compute in Hp. injection Hp as <-. discriminate.
Defined.

(** X7: the listing has one entry per distinct registered name: after any
    sequence of registrations its length is the number of distinct names,
    however often each was registered. *)
Theorem tools_list_length (regs : list Registration) (req : MCPRequest) :
  Method req = "tools/list" ->
  exists listing,
    HandleRequest (register_all regs NewServer) req
    = {| RespJSONRPC := "2.0"; RespID := ID req;
         Result := Some (ResultListTools {| Tools := listing |}); Error := None |}
    /\ length listing = size (list_to_set (List.map reg_name regs) : gset string).
Proof.
  intros Hm. eexists. split; [by apply HandleRequest_tools_list|].
  rewrite length_map. unfold range_keys. rewrite register_all_dom. simpl.
  rewrite dom_empty_L, (left_id_L ∅ (∪)). reflexivity.
Qed.

Lemma tools_list_length_witness :
  exists listing,
    Result (HandleRequest
              (register_all
                 [ {| reg_name := "basic_math"; reg_description := "a";
                      reg_inputSchema := None; reg_handler := custom_handler |};
                   {| reg_name := "custom_tool"; reg_description := "b";
                      reg_inputSchema := None; reg_handler := custom_handler |};
                   {| reg_name := "basic_math"; reg_description := "c";
                      reg_inputSchema := None; reg_handler := failing_handler |} ]
                 NewServer) list_request)
    = Some (ResultListTools {| Tools := listing |})
    /\ length listing = 2%nat.
Proof.
  destruct (tools_list_length
              [ {| reg_name := "basic_math"; reg_description := "a";
                   reg_inputSchema := None; reg_handler := custom_handler |};
                {| reg_name := "custom_tool"; reg_description := "b";
                   reg_inputSchema := None; reg_handler := custom_handler |};
                {| reg_name := "basic_math"; reg_description := "c";
                   reg_inputSchema := None; reg_handler := failing_handler |} ]
              list_request eq_refl) as (listing & Hres & Hlen).
  exists listing. split; [by rewrite Hres|]. rewrite Hlen. by vm_compute.
Defined.

End DispatchMore.

(** * Further properties of the stdio transport *)
Section StdioMore.

(** X8: the loop is incremental.  Reading the lines in two chunks leaves
    the console as reading them at once does, and the empty lines can be
    left out without any effect on the console. *)
Theorem Run_loop_chunks (s : Server) (first rest : list string) (c : Console) :
  Run_loop s (first ++ rest)%list c = Run_loop s rest (Run_loop s first c)
  /\ Run_loop s first c = Run_loop s (filter (fun line => line <> "") first) c.
Proof.
  split.
  - revert c. induction first as [|line first IH]; intros c; [done|]. simpl.
    destruct (String.eqb line ""); [apply IH|].
    destruct (json.Unmarshal_MCPRequest line); apply IH.
  - revert c. induction first as [|line first IH]; intros c; [done|].
    destruct (decide (line = "")) as [->|Hne].
    + rewrite filter_cons_False by (intros H; by apply H). simpl. apply IH.
    + rewrite filter_cons_True by done. simpl.
      destruct (String.eqb line ""); [apply IH|].
      destruct (json.Unmarshal_MCPRequest line); apply IH.
Qed.

End StdioMore.

(** * Further properties of the plain HTTP transport *)
Section PlainHTTPMore.

Import HTTPTransport.

Lemma plain_cors_writer_fresh (tr : t) (r : http.Request) :
  http.Status (plain_cors_writer tr r) = None
  /\ http.Written (plain_cors_writer tr r) = "".
Proof.
  unfold plain_cors_writer. destruct (CORSEnabled (config tr)); [|done].
  by destruct (isOriginAllowed tr _).
Qed.

Lemma plain_corsMiddleware_cases (tr : t) (handler : http.Handler) (r : http.Request) :
  corsMiddleware tr handler http.NewResponseWriter r
  = if CORSEnabled (config tr) && String.eqb (http.Method r) "OPTIONS"
    then http.WriteHeader (plain_cors_writer tr r) http.StatusOK
    else handler (plain_cors_writer tr r) r.
Proof.
  unfold corsMiddleware, plain_cors_writer.
  destruct (CORSEnabled (config tr)); [|done]. simpl.
  by destruct (String.eqb (http.Method r) "OPTIONS").
Qed.

Lemma Error_spec (w : http.ResponseWriter) (msg : string) (code : Z) :
  http.Status w = None -> http.Written w = "" ->
  http.StatusCode (http.Error w msg code) = code
  /\ http.Written (http.Error w msg code) = msg ++ http.nl.
Proof.
  intros Hs Hw. unfold http.Error, http.StatusCode, http.Write, http.WriteHeader.
  simpl. rewrite Hs. simpl. by rewrite Hw.
Qed.

(** X9: the plain transport's [/mcp] handler turns away, with a plain-text
    message and before any dispatch, a request that is not a POST (405), a
    POST whose Content-Type does not contain application/json (400), and a
    POST whose body cannot be read (400). *)
Theorem plain_handleMCP_rejections (tr : t) (r : http.Request) :
  plain_reaches_handler tr r ->
  let w := serveMCP tr r in
  let contentType := http.Get (http.ReqHeader r) "Content-Type" in
  (http.Method r <> "POST" ->
     http.StatusCode w = 405 /\ http.Written w = "Method not allowed" ++ http.nl)
  /\ (http.Method r = "POST" -> Contains contentType "application/json" = false ->
        http.StatusCode w = 400
        /\ http.Written w = "Content-Type must be application/json" ++ http.nl)
  /\ (http.Method r = "POST" -> Contains contentType "application/json" = true ->
        http.Body r = None ->
        http.StatusCode w = 400
        /\ http.Written w = "Failed to read request body" ++ http.nl).
Proof.
  intros Hreach w contentType. subst w contentType. unfold serveMCP.
  rewrite plain_corsMiddleware_cases, Hreach.
  destruct (plain_cors_writer_fresh tr r) as [Hs Hw]. unfold handleMCP.
  split; [|split].
  - intros Hm%String.eqb_neq. unfold http.MethodPost. rewrite Hm. simpl negb. cbv iota.
    by apply Error_spec.
  - intros Hm Hct. rewrite Hm, Hct. simpl. by apply Error_spec.
  - intros Hm Hct Hb. rewrite Hm, Hct, Hb. simpl. by apply Error_spec.
Qed.

Lemma plain_handleMCP_rejections_witness :
  http.StatusCode
    (serveMCP (NewHTTPTransport NewServer None)
       {| http.Method := "GET"; http.Path := "/mcp"; http.ReqHeader := ∅;
          http.Body := Some ""; http.TicksBeforeDone := 0 |}) = 405
  /\ http.StatusCode
       (serveMCP (NewHTTPTransport NewServer None)
          (post [("Content-Type", "text/plain")] "{}")) = 400.
Proof.
  split.
  - apply (plain_handleMCP_rejections (NewHTTPTransport NewServer None)
             {| http.Method := "GET"; http.Path := "/mcp"; http.ReqHeader := ∅;
                http.Body := Some ""; http.TicksBeforeDone := 0 |});
      [reflexivity|discriminate].
  - destruct (plain_handleMCP_rejections (NewHTTPTransport NewServer None)
                (post [("Content-Type", "text/plain")] "{}") eq_refl)
      as (_ & Hct & _).
    apply Hct; reflexivity.
Defined.

(** X10: whatever the request, the plain transport's [/mcp] route answers
    with one of the statuses 200, 400, 404, 405 and 500. *)
Theorem plain_status_codes (tr : t) (r : http.Request) :
  http.StatusCode (serveMCP tr r) ∈ [200; 400; 404; 405; 500].
Proof.
  unfold serveMCP. rewrite plain_corsMiddleware_cases.
  destruct (plain_cors_writer_fresh tr r) as [Hs Hw].
  destruct (CORSEnabled (config tr) && String.eqb (http.Method r) "OPTIONS").
  { unfold http.StatusCode, http.WriteHeader. rewrite Hs. simpl. set_solver. }
  unfold handleMCP.
  destruct (negb (String.eqb (http.Method r) http.MethodPost)).
  { rewrite (proj1 (Error_spec _ _ _ Hs Hw)). set_solver. }
  destruct (negb (Contains _ _)).
  { rewrite (proj1 (Error_spec _ _ _ Hs Hw)). set_solver. }
  destruct (http.Body r) as [body|];
    [|rewrite (proj1 (Error_spec _ _ _ Hs Hw)); set_solver].
  destruct (json.Unmarshal_MCPRequest body) as [mcpReq|err].
  - match goal with
    | |- http.StatusCode (writeJSONResponse ?w ?resp ?code) ∈ _ =>
        rewrite (proj1 (writeJSONResponse_spec w resp code Hs Hw))
    end.
    destruct (HandleRequest_shape (mcpServer tr) mcpReq)
      as (res & e & -> & [[_ ->]|[_ (code & msg & data & -> & Hc)]]); simpl.
    + set_solver.
    + destruct Hc as [-> | [-> | ->]]; simpl; set_solver.
  - match goal with
    | |- http.StatusCode (writeJSONResponse ?w ?resp ?code) ∈ _ =>
        rewrite (proj1 (writeJSONResponse_spec w resp code Hs Hw))
    end.
    set_solver.
Qed.

(** X11: the convenience route [/tools] answers a GET with the encoded
    [tools/list] response under the fixed id "tools-list", always with
    status 200, and any other method with 405. *)
Theorem handleToolsList_spec (tr : t) (r : http.Request) :
  plain_reaches_handler tr r ->
  let w := serveTools tr r in
  (http.Method r = "GET" ->
     json_response w
       {| RespJSONRPC := "2.0"; RespID := VString "tools-list";
          Result := Some (ResultListTools
                            {| Tools := List.map (getToolDefinition (mcpServer tr))
                                          (range_keys (tools (mcpServer tr))) |});
          Error := None |}
       200)
  /\ (http.Method r <> "GET" ->
        http.StatusCode w = 405 /\ http.Written w = "Method not allowed" ++ http.nl).
Proof.
  intros Hreach w. subst w. unfold serveTools.
  rewrite plain_corsMiddleware_cases, Hreach.
  destruct (plain_cors_writer_fresh tr r) as [Hs Hw]. unfold handleToolsList.
  split.
  - intros Hm. rewrite Hm. simpl negb. cbv iota.
    rewrite HandleRequest_tools_list by reflexivity. simpl.
    by apply writeJSONResponse_spec.
  - intros Hm%String.eqb_neq. unfold http.MethodGet. rewrite Hm. simpl negb. cbv iota.
    by apply Error_spec.
Qed.

Lemma handleToolsList_spec_witness :
  http.StatusCode
    (serveTools
       (NewHTTPTransport
          (RegisterTool NewServer "basic_math" "Basic math operations" None custom_handler)
          None)
       {| http.Method := "GET"; http.Path := "/tools"; http.ReqHeader := ∅;
          http.Body := Some ""; http.TicksBeforeDone := 0 |})
  = 200.
Proof.
  destruct (handleToolsList_spec
              (NewHTTPTransport
                 (RegisterTool NewServer "basic_math" "Basic math operations" None
                    custom_handler) None)
              {| http.Method := "GET"; http.Path := "/tools"; http.ReqHeader := ∅;
                 http.Body := Some ""; http.TicksBeforeDone := 0 |} eq_refl)
    as [Hget _].
  destruct (Hget eq_refl) as [Hcode _]. exact Hcode.
Defined.

Lemma originAllowed_spec (origins : list string) (origin : string) :
  originAllowed origins origin = true <-> "*" ∈ origins \/ origin ∈ origins.
Proof.
  induction origins as [|allowed rest IH]; simpl.
  - split; [done|]. intros [H|H]; by apply elem_of_nil in H.
  - destruct (String.eqb_spec allowed "*") as [->|Hstar]; simpl.
    { split; [|done]. intros _. left. by left. }
    destruct (String.eqb_spec allowed origin) as [->|Ho].
    { split; [|done]. intros _. right. by left. }
    rewrite IH. split.
    + intros [H|H]; [left|right]; by right.
    + intros [H|H]; apply elem_of_cons in H as [H|H]; try (by subst); auto.
Qed.

(** X13: on both HTTP transports an origin is allowed exactly when the
    configured allow-list holds the wildcard or the origin itself (the
    empty origin of a request without Origin header included). *)
Theorem isOriginAllowed_iff
  (tr : t) (str : StreamableHTTPTransport.t) (origin : string) :
  (isOriginAllowed tr origin = true
   <-> "*" ∈ CORSOrigins (config tr) \/ origin ∈ CORSOrigins (config tr))
  /\ (StreamableHTTPTransport.isOriginAllowed str origin = true
      <-> "*" ∈ StreamableHTTPTransport.CORSOrigins (StreamableHTTPTransport.config str)
          \/ origin ∈ StreamableHTTPTransport.CORSOrigins
                        (StreamableHTTPTransport.config str)).
Proof. split; apply originAllowed_spec. Qed.

Lemma WriteHeader_headers (w : http.ResponseWriter) (code : Z) :
  http.RespHeader (http.WriteHeader w code) = http.RespHeader w.
Proof. unfold http.WriteHeader. by destruct (http.Status w). Qed.

Lemma Write_headers (w : http.ResponseWriter) (data : string) :
  http.RespHeader (http.Write w data) = http.RespHeader w.
Proof. unfold http.Write. simpl. apply WriteHeader_headers. Qed.

Lemma Error_headers (w : http.ResponseWriter) (msg : string) (code : Z) (k : string) :
  k <> "Content-Type" -> k <> "Content-Length" -> k <> "X-Content-Type-Options" ->
  http.RespHeader (http.Error w msg code) !! k = http.RespHeader w !! k.
Proof.
  intros H1 H2 H3.
  assert (Hh : http.RespHeader (http.Error w msg code)
               = <["X-Content-Type-Options" := "nosniff"]>
                   (<["Content-Type" := "text/plain; charset=utf-8"]>
                      (delete "Content-Length" (http.RespHeader w)))).
  { unfold http.Error. by rewrite Write_headers, WriteHeader_headers. }
  rewrite Hh. by rewrite !lookup_insert_ne, lookup_delete_ne by done.
Qed.

Lemma Encode_headers (w : http.ResponseWriter) (response : MCPResponse) :
  http.RespHeader (Encode w response) = http.RespHeader w.
Proof.
  unfold Encode. destruct (json.Marshal_MCPResponse response); [|done].
  apply Write_headers.
Qed.

Lemma plain_writeJSONResponse_headers (w : http.ResponseWriter) (data : MCPResponse)
  (code : Z) (k : string) :
  k <> "Content-Type" ->
  http.RespHeader (writeJSONResponse w data code) !! k = http.RespHeader w !! k.
Proof.
  intros Hk. unfold writeJSONResponse. rewrite Encode_headers.
  assert (Hh : http.RespHeader
                 (http.WriteHeader (http.Set_ w "Content-Type" "application/json") code)
               = <["Content-Type" := "application/json"]> (http.RespHeader w)).
  { by rewrite WriteHeader_headers. }
  rewrite Hh. by rewrite lookup_insert_ne.
Qed.

Lemma plain_handleMCP_headers (tr : t) (w : http.ResponseWriter) (r : http.Request)
  (k : string) :
  k <> "Content-Type" -> k <> "Content-Length" -> k <> "X-Content-Type-Options" ->
  http.RespHeader (handleMCP tr w r) !! k = http.RespHeader w !! k.
Proof.
  intros H1 H2 H3. unfold handleMCP.
  destruct (negb (String.eqb _ _)); [by apply Error_headers|].
  destruct (negb (Contains _ _)); [by apply Error_headers|].
  destruct (http.Body r) as [body|]; [|by apply Error_headers].
  destruct (json.Unmarshal_MCPRequest body); by apply plain_writeJSONResponse_headers.
Qed.

(** X12: the CORS layer of the plain transport marks every response of
    [/mcp], pre-flight or not, accepted or turned away: with CORS enabled
    the response names the methods GET, POST, OPTIONS, the headers
    Content-Type and Authorization and a max age of 86400, and it reflects
    the request's Origin exactly when that origin is allowed; with CORS
    disabled it carries none of the four headers. *)
Theorem plain_cors_headers (tr : t) (r : http.Request) :
  let origin := http.Get (http.ReqHeader r) "Origin" in
  cors_headers (http.RespHeader (serveMCP tr r))
  = if CORSEnabled (config tr) then
      [ if isOriginAllowed tr origin then Some origin else None;
        Some "GET, POST, OPTIONS"; Some "Content-Type, Authorization"; Some "86400" ]
    else [None; None; None; None].
Proof.
  intros origin.
  assert (Hw : cors_headers (http.RespHeader (plain_cors_writer tr r))
               = if CORSEnabled (config tr) then
                   [ if isOriginAllowed tr origin then Some origin else None;
                     Some "GET, POST, OPTIONS"; Some "Content-Type, Authorization";
                     Some "86400" ]
                 else [None; None; None; None]).
  { unfold plain_cors_writer, cors_headers. fold origin.
    destruct (CORSEnabled (config tr)); [|done].
    destruct (isOriginAllowed tr origin); simpl;
      repeat (rewrite ?lookup_insert_eq; rewrite ?lookup_insert_ne by done); done. }
  rewrite <- Hw. unfold serveMCP. rewrite plain_corsMiddleware_cases.
  destruct (CORSEnabled (config tr) && String.eqb (http.Method r) "OPTIONS").
  - by rewrite WriteHeader_headers.
  - unfold cors_headers. by rewrite !plain_handleMCP_headers.
Qed.

End PlainHTTPMore.

(** * Further properties of the streamable HTTP transport *)
Section StreamableHTTPMore.

Import StreamableHTTPTransport.

Lemma handleMCP_unfold (tr : t) (wd : World) (w : http.ResponseWriter)
  (r : http.Request) :
  http.Get (http.ReqHeader r) "MCP-Protocol-Version" <> "" ->
  let sessionID := http.Get (http.ReqHeader r) "Mcp-Session-Id" in
  handleMCP tr wd w r
  = if String.eqb sessionID "" then method_switch tr wd w r sessionID
    else if fst (isValidSession tr wd sessionID) then
      method_switch
        (fst (updateSessionActivity tr (snd (isValidSession tr wd sessionID)) sessionID))
        (snd (updateSessionActivity tr (snd (isValidSession tr wd sessionID)) sessionID))
        w r sessionID
    else (tr, snd (isValidSession tr wd sessionID),
          http.Error w "Invalid or expired session" http.StatusUnauthorized).
Proof.
  intros Hv%String.eqb_neq sessionID. unfold handleMCP, method_switch.
  rewrite Hv. fold sessionID.
  destruct (String.eqb sessionID ""); simpl negb; cbv iota.
  - by destruct (handlePOST tr wd w r sessionID).
  - destruct (isValidSession tr wd sessionID) as [[|] wd1]; simpl; [|done].
    destruct (updateSessionActivity tr wd1 sessionID) as [tr2 wd2]. simpl.
    by destruct (handlePOST tr2 wd2 w r sessionID).
Qed.

(** X14: with CORS enabled, an OPTIONS request is answered 200 with an
    empty body by the CORS layer alone: the session store is not touched,
    the clock and the random source are not read, whatever the headers. *)
Theorem preflight_leaves_state (tr : t) (wd : World) (r : http.Request) :
  CORSEnabled (config tr) = true ->
  http.Method r = "OPTIONS" ->
  fst (serveMCP tr wd r) = (tr, wd)
  /\ http.StatusCode (snd (serveMCP tr wd r)) = 200
  /\ http.Written (snd (serveMCP tr wd r)) = "".
Proof.
  intros Hc Hm. rewrite serveMCP_cases, Hc, Hm. simpl.
  destruct (cors_writer_fresh tr r) as (Hs & Hw & _).
  unfold http.StatusCode, http.WriteHeader. rewrite Hs. by simpl.
Qed.

Lemma preflight_leaves_state_witness :
  fst (serveMCP (one_session 0) (world_at (9 * time.Minute))
         (request "OPTIONS" [("Mcp-Session-Id", "0a0b")] ""))
  = (one_session 0, world_at (9 * time.Minute)).
Proof.
  apply (preflight_leaves_state (one_session 0) (world_at (9 * time.Minute))
           (request "OPTIONS" [("Mcp-Session-Id", "0a0b")] "")); reflexivity.
Defined.

(** X15: a request that names a session the store does not hold, or one
    that is not active, is answered 401 whatever its method and body; the
    store is left as it was and the clock is not read. *)
Theorem unknown_session_rejected (tr : t) (wd : World) (r : http.Request) :
  reaches_handler tr r ->
  http.Get (http.ReqHeader r) "MCP-Protocol-Version" <> "" ->
  let sessionID := http.Get (http.ReqHeader r) "Mcp-Session-Id" in
  sessionID <> "" ->
  (sessions tr !! sessionID = None
   \/ exists session, sessions tr !! sessionID = Some session
                      /\ Active session = false) ->
  fst (serveMCP tr wd r) = (tr, wd)
  /\ http.StatusCode (snd (serveMCP tr wd r)) = 401
  /\ http.Written (snd (serveMCP tr wd r)) = "Invalid or expired session" ++ http.nl.
Proof.
  intros Hreach Hv sessionID Hne Hs. rewrite serveMCP_cases, Hreach.
  rewrite (handleMCP_unfold _ _ _ _ Hv). fold sessionID.
  apply String.eqb_neq in Hne. rewrite Hne.
  assert (Hval : isValidSession tr wd sessionID = (false, wd)).
  { unfold isValidSession. destruct Hs as [-> | (session & -> & ->)]; done. }
  rewrite Hval. simpl.
  destruct (cors_writer_fresh tr r) as (Hst & Hw & _).
  split; [done|]. by apply Error_spec.
Qed.

Lemma unknown_session_rejected_witness :
  http.StatusCode
    (snd (serveMCP (one_session 0) (world_at 0)
            (request "POST" [("MCP-Protocol-Version", "2024-11-05");
                             ("Mcp-Session-Id", "ffff");
                             ("Accept", "application/json")] "{}")))
  = 401.
Proof.
  apply (unknown_session_rejected (one_session 0) (world_at 0)
           (request "POST" [("MCP-Protocol-Version", "2024-11-05");
                            ("Mcp-Session-Id", "ffff");
                            ("Accept", "application/json")] "{}"));
    [reflexivity|discriminate|discriminate|by left].
Defined.

Lemma writeSSEResponse_status (wd : World) (w : http.ResponseWriter)
  (response : MCPResponse) (sessionID : string) :
  http.Status w = None -> http.IsFlusher w = true ->
  let w' := snd (writeSSEResponse wd w response sessionID) in
  http.StatusCode w' = 200
  /\ http.RespHeader w' !! "Cache-Control" = Some "no-cache"
  /\ (sessionID <> "" -> http.RespHeader w' !! "Mcp-Session-Id" = Some sessionID).
Proof.
  intros Hs Hf. unfold writeSSEResponse.
  set (w1 := http.Set_ (http.Set_ (http.Set_ w _ _) _ _) _ _).
  set (w2 := if negb (String.eqb sessionID "") then _ else w1).
  assert (H2 : http.Status w2 = None /\ http.IsFlusher w2 = true
               /\ http.RespHeader w2 !! "Cache-Control" = Some "no-cache"
               /\ (sessionID <> "" ->
                   http.RespHeader w2 !! "Mcp-Session-Id" = Some sessionID)).
  { subst w2 w1. destruct (String.eqb_spec sessionID "") as [->|Hne]; simpl.
    - split; [done|]. split; [done|]. split; [|done].
      rewrite lookup_insert_ne by done. by rewrite lookup_insert_eq.
    - split; [done|]. split; [done|]. split; [|by rewrite lookup_insert_eq].
      rewrite !lookup_insert_ne by done. by rewrite lookup_insert_eq. }
  destruct H2 as (Hs2 & Hf2 & Hcc & Hsid). rewrite Hf2. simpl negb. cbv iota.
  destruct (generateEventID wd) as [eventID wd']. simpl snd.
  unfold http.Flush. rewrite WriteHeader_headers, !Write_headers.
  split; [|by split].
  unfold http.StatusCode, http.Write, http.WriteHeader. simpl. rewrite Hs2. by simpl.
Qed.

(** X16: an SSE-framed answer always has status 200, also when the
    response it carries is an error: a [tools/call] POST that passes the
    header checks with an Accept naming the SSE media type is answered 200
    with Cache-Control no-cache, and names the session when the request
    named one. *)
Theorem sse_response_status (tr : t) (wd : World) (r : http.Request)
  (body : string) (mcpReq : MCPRequest) :
  reaches_parsing tr wd r ->
  http.Body r = Some body ->
  json.Unmarshal_MCPRequest body = inl mcpReq ->
  Method mcpReq = "tools/call" ->
  Contains (http.Get (http.ReqHeader r) "Accept") "text/event-stream" = true ->
  let w := snd (serveMCP tr wd r) in
  let sessionID := http.Get (http.ReqHeader r) "Mcp-Session-Id" in
  http.StatusCode w = 200
  /\ http.RespHeader w !! "Cache-Control" = Some "no-cache"
  /\ (sessionID <> "" -> http.RespHeader w !! "Mcp-Session-Id" = Some sessionID).
Proof.
  intros Hreach Hb Hp Hcall Hsse w sessionID. subst w.
  destruct (serveMCP_reaches_handlePOST tr wd r Hreach) as (tr' & wd' & _ & ->).
  destruct (cors_writer_fresh tr r) as (Hs0 & _ & Hf0).
  unfold handlePOST, shouldStream. rewrite Hsse, Hb, Hp, Hcall.
  rewrite andb_false_r. simpl.
  by apply writeSSEResponse_status.
Qed.

Lemma sse_response_status_witness :
  http.StatusCode
    (snd (serveMCP math_transport quiet_world
            (streamable_post "text/event-stream"
               (js "{'id':1,'method':'tools/call','params':{'name':'nope'}}"))))
  = 200.
Proof.
  apply (sse_response_status math_transport quiet_world
           (streamable_post "text/event-stream"
              (js "{'id':1,'method':'tools/call','params':{'name':'nope'}}"))
           (js "{'id':1,'method':'tools/call','params':{'name':'nope'}}")
           {| JSONRPC := ""; ID := VNumber "1"; Method := "tools/call";
              Params := js "{'name':'nope'}" |}).
  - split; [reflexivity|]. split; [discriminate|]. split; [by left|reflexivity].
  - reflexivity.
  - vm_compute. reflexivity.
  - reflexivity.
  - reflexivity.
Defined.

Lemma streamable_writeJSONResponse_status (w : http.ResponseWriter)
  (response : MCPResponse) :
  http.Status w = None ->
  http.StatusCode (writeJSONResponse w response)
  = match Error response with
    | None => 200
    | Some e =>
        if Code e =? -32601 then 404
        else if (Code e =? -32600) || (Code e =? -32602) then 400
        else 500
    end.
Proof.
  intros Hs. unfold writeJSONResponse, Encode.
  destruct (json.Marshal_MCPResponse response) as [text|err];
    unfold http.StatusCode, http.Write, http.WriteHeader; simpl; rewrite Hs; simpl;
    (destruct (Error response) as [e|]; [|done]);
    unfold ErrorCodeInvalidRequest, ErrorCodeMethodNotFound, ErrorCodeInvalidParams,
      ErrorCodeInternalError;
    destruct (Z.eqb_spec (Code e) (-32600)) as [->|]; try done;
    destruct (Z.eqb_spec (Code e) (-32601)); try done;
    destruct (Z.eqb_spec (Code e) (-32602)); try done;
    by destruct (Z.eqb_spec (Code e) (-32603)).
Qed.

(** X17: a JSON-framed answer of the streamable transport has the status
    of its error code: for a POST that passes the header checks and is not
    SSE-framed (the method is not [tools/call], or Accept does not name
    SSE), 200 without error, 404 for MethodNotFound, 400 for InvalidParams
    and 500 for InternalError. *)
Theorem streamable_json_status (tr : t) (wd : World) (r : http.Request)
  (body : string) (mcpReq : MCPRequest) :
  reaches_parsing tr wd r ->
  http.Body r = Some body ->
  json.Unmarshal_MCPRequest body = inl mcpReq ->
  Method mcpReq <> "tools/call"
  \/ Contains (http.Get (http.ReqHeader r) "Accept") "text/event-stream" = false ->
  let response := HandleRequest (mcpServer tr) mcpReq in
  http.StatusCode (snd (serveMCP tr wd r))
  = match Error response with
    | None => 200
    | Some e =>
        if Code e =? -32601 then 404 else if Code e =? -32602 then 400 else 500
    end.
Proof.
  intros Hreach Hb Hp Hjson response.
  destruct (serveMCP_reaches_handlePOST tr wd r Hreach) as (tr' & wd' & Hsrv & ->).
  destruct Hreach as (_ & _ & _ & Hacc).
  destruct (cors_writer_fresh tr r) as (Hs0 & _ & _).
  unfold handlePOST, shouldStream. rewrite Hb, Hp, Hsrv. fold response.
  set (accept := http.Get (http.ReqHeader r) "Accept") in *.
  assert (Hgate : negb (Contains accept "application/json")
                  && negb (Contains accept "text/event-stream") = false)
    by (by destruct (Contains accept "application/json"),
             (Contains accept "text/event-stream")).
  rewrite Hgate.
  assert (Hframe : Contains accept "text/event-stream"
                   && String.eqb (Method mcpReq) "tools/call" = false).
  { destruct Hjson as [Hm%String.eqb_neq | ->]; [by rewrite Hm, andb_false_r|done]. }
  rewrite Hframe. simpl snd.
  rewrite streamable_writeJSONResponse_status by done.
  subst response.
  destruct (HandleRequest_shape (mcpServer tr) mcpReq)
    as (res & e & -> & [[_ ->]|[_ (code & msg & data & -> & Hc)]]); simpl; [done|].
  by destruct Hc as [-> | [-> | ->]].
Qed.

Lemma streamable_json_status_witness :
  http.StatusCode
    (snd (serveMCP math_transport quiet_world
            (streamable_post "application/json"
               (js "{'id':1,'method':'tools/call','params':{'name':'nope'}}"))))
  = 404.
Proof.
  rewrite (streamable_json_status math_transport quiet_world
             (streamable_post "application/json"
                (js "{'id':1,'method':'tools/call','params':{'name':'nope'}}"))
             (js "{'id':1,'method':'tools/call','params':{'name':'nope'}}")
             {| JSONRPC := ""; ID := VNumber "1"; Method := "tools/call";
                Params := js "{'name':'nope'}" |}).
  - vm_compute. reflexivity.
  - split; [reflexivity|]. split; [discriminate|]. split; [by left|reflexivity].
  - reflexivity.
  - vm_compute. reflexivity.
  - by right.
Defined.

Lemma method_switch_keeps_transport (tr : t) (wd : World) (w : http.ResponseWriter)
  (r : http.Request) (sessionID : string) :
  http.Method r <> "GET" \/ sessionID <> "" ->
  fst (fst (method_switch tr wd w r sessionID)) = tr.
Proof.
  intros H. unfold method_switch.
  destruct (String.eqb (http.Method r) http.MethodPost); [done|].
  destruct (String.eqb_spec (http.Method r) http.MethodGet) as [Hg|]; [|done].
  destruct H as [H|H]; [done|]. by apply handleGET_keeps_transport.
Qed.

(** The transport a request leaves behind is the one it found, or that one
    after a touch of the session the request names. *)
Lemma serveMCP_transport (tr : t) (wd : World) (r : http.Request) :
  let sessionID := http.Get (http.ReqHeader r) "Mcp-Session-Id" in
  http.Method r <> "GET" \/ sessionID <> "" ->
  fst (fst (serveMCP tr wd r)) = tr
  \/ exists wd1, fst (fst (serveMCP tr wd r))
                 = fst (updateSessionActivity tr wd1 sessionID).
Proof.
  intros sessionID H. rewrite serveMCP_cases.
  destruct (CORSEnabled (config tr) && String.eqb (http.Method r) "OPTIONS");
    [by left|].
  destruct (String.eqb_spec (http.Get (http.ReqHeader r) "MCP-Protocol-Version") "")
    as [Hv|Hv].
  { left. unfold handleMCP. by rewrite Hv. }
  rewrite (handleMCP_unfold _ _ _ _ Hv). fold sessionID.
  destruct (String.eqb sessionID "").
  { left. by apply method_switch_keeps_transport. }
  destruct (fst (isValidSession tr wd sessionID)); [|by left].
  right. eexists. by apply method_switch_keeps_transport.
Qed.

(** X18: no request other than a stream-opening GET creates a session, and
    no request deletes one: after a request that is not a GET, or that
    names a session, the store is the one before, or the one before with
    the [LastSeen] of the named session replaced; the dispatcher and the
    configuration stay the same. *)
Theorem requests_only_touch_sessions (tr : t) (wd : World) (r : http.Request) :
  let sessionID := http.Get (http.ReqHeader r) "Mcp-Session-Id" in
  http.Method r <> "GET" \/ sessionID <> "" ->
  let tr' := fst (fst (serveMCP tr wd r)) in
  mcpServer tr' = mcpServer tr /\ config tr' = config tr
  /\ (sessions tr' = sessions tr
      \/ exists session now,
          sessions tr !! sessionID = Some session
          /\ sessions tr'
             = <[sessionID := {| SessionID := SessionID session;
                                 CreatedAt := CreatedAt session;
                                 LastSeen := now;
                                 Active := Active session |}]> (sessions tr)).
Proof.
  intros sessionID H tr'. subst tr'.
  destruct (serveMCP_transport tr wd r H) as [-> | [wd1 ->]]; [by auto|].
  fold sessionID. unfold updateSessionActivity.
  destruct (sessions tr !! sessionID) as [session|] eqn:Hs; simpl; [|by auto].
  split; [done|]. split; [done|]. right. by eexists _, _.
Qed.

Lemma requests_only_touch_sessions_witness :
  dom (sessions (fst (fst (serveMCP (one_session 0) (world_at time.Minute)
                             session_request))))
  = dom (sessions (one_session 0)).
Proof.
  destruct (requests_only_touch_sessions (one_session 0) (world_at time.Minute)
              session_request) as (_ & _ & [-> | (session & now & Hs & ->)]).
  - left. discriminate.
  - reflexivity.
  - rewrite dom_insert_L. apply elem_of_dom_2 in Hs. set_solver.
Defined.

(** **** Identifiers and streams *)

Lemma EncodeToString_length (src : list Byte.byte) :
  String.length (hex.EncodeToString src) = (2 * length src)%nat.
Proof.
  induction src as [|b src IH]; [done|].
  change (S (S (String.length (hex.EncodeToString src))) = (2 * S (length src))%nat).
  rewrite IH. lia.
Qed.

Lemma generateEventID_spec (wd : World) :
  String.length (fst (generateEventID wd)) = 16%nat
  /\ drawn (snd (generateEventID wd)) = (drawn wd + 8)%nat
  /\ readings (snd (generateEventID wd)) = readings wd
  /\ clock (snd (generateEventID wd)) = clock wd.
Proof.
  unfold generateEventID, rand.Read. cbn [fst snd drawn readings clock].
  by rewrite EncodeToString_length, length_map, length_seq.
Qed.

Lemma Write_after_status (w : http.ResponseWriter) (data : string) (code : Z) :
  http.Status w = Some code ->
  http.Status (http.Write w data) = Some code
  /\ http.Written (http.Write w data) = http.Written w ++ data
  /\ http.RespHeader (http.Write w data) = http.RespHeader w.
Proof. intros Hs. unfold http.Write, http.WriteHeader. by rewrite Hs. Qed.

Lemma Write_first (w : http.ResponseWriter) (data : string) :
  http.Status w = None ->
  http.Status (http.Write w data) = Some 200
  /\ http.Written (http.Write w data) = http.Written w ++ data
  /\ http.RespHeader (http.Write w data) = http.RespHeader w.
Proof. intros Hs. unfold http.Write, http.WriteHeader. by rewrite Hs. Qed.

Lemma Flush_after_status (w : http.ResponseWriter) (code : Z) :
  http.Status w = Some code -> http.Flush w = w.
Proof. intros Hs. unfold http.Flush, http.WriteHeader. by rewrite Hs. Qed.

Lemma heartbeats_spec (n : nat) (wd : World) (w : http.ResponseWriter) (code : Z) :
  http.Status w = Some code ->
  exists ids,
    length ids = n
    /\ Forall (fun id => String.length id = 16%nat) ids
    /\ http.Written (snd (heartbeats n wd w))
       = http.Written w ++ concat_frames (List.map heartbeat_frame ids)
    /\ http.Status (snd (heartbeats n wd w)) = Some code
    /\ http.RespHeader (snd (heartbeats n wd w)) = http.RespHeader w
    /\ drawn (fst (heartbeats n wd w)) = (drawn wd + 8 * n)%nat.
Proof.
  revert wd w. induction n as [|n IH]; intros wd w Hs.
  - exists []. simpl. split; [done|]. split; [done|].
    split; [|split; [done|split; [done|lia]]].
    clear. induction (http.Written w) as [|c x IHx]; [done|].
    change (String c x = String c (x ++ "")). by f_equal.
  - cbn [heartbeats]. destruct (generateEventID_spec wd) as (Hlen & Hdr & _).
    destruct (generateEventID wd) as [eventID wd1]. simpl in Hlen, Hdr.
    set (w1 := http.Write w _).
    destruct (Write_after_status w ("id: " ++ eventID ++ http.nl) code Hs)
      as (Hs1 & Hw1 & Hh1). fold w1 in Hs1, Hw1, Hh1.
    set (w2 := http.Write w1 _).
    destruct (Write_after_status w1 ("event: heartbeat" ++ http.nl) code Hs1)
      as (Hs2 & Hw2 & Hh2). fold w2 in Hs2, Hw2, Hh2.
    set (w3 := http.Write w2 _).
    destruct (Write_after_status w2
                ((js "data: {'type':'ping'}") ++ http.nl ++ http.nl) code Hs2)
      as (Hs3 & Hw3 & Hh3). fold w3 in Hs3, Hw3, Hh3.
    rewrite (Flush_after_status w3 code Hs3).
    destruct (IH wd1 w3 Hs3) as (ids & Hn & Hall & Hwr & Hst & Hhd & Hd).
    exists (eventID :: ids). cbn [length List.map concat_frames].
    split; [by rewrite Hn|]. split; [by constructor|].
    split; [|split; [exact Hst|split; [by rewrite Hhd, Hh3, Hh2, Hh1|]]].
    + rewrite Hwr, Hw3, Hw2, Hw1. unfold heartbeat_frame, sse_frame.
      rewrite !append_assoc. reflexivity.
    + rewrite Hd, Hdr. lia.
Qed.

Lemma setupSSEStream_spec (wd : World) (w : http.ResponseWriter) (r : http.Request)
  (sessionID : string) :
  http.Status w = None -> http.Written w = "" -> http.IsFlusher w = true ->
  let w' := snd (setupSSEStream wd w r sessionID) in
  (exists id ids,
      String.length id = 16%nat
      /\ length ids = http.TicksBeforeDone r
      /\ Forall (fun id => String.length id = 16%nat) ids
      /\ http.Written w'
         = connection_frame id sessionID
             ++ concat_frames (List.map heartbeat_frame ids))
  /\ http.StatusCode w' = 200
  /\ http.RespHeader w' !! "Content-Type" = Some "text/event-stream"
  /\ http.RespHeader w' !! "Mcp-Session-Id" = Some sessionID
  /\ drawn (fst (setupSSEStream wd w r sessionID))
     = (drawn wd + 8 * S (http.TicksBeforeDone r))%nat.
Proof.
  intros Hs Hw Hf w'. subst w'. unfold setupSSEStream.
  set (w0 := http.Set_ (http.Set_ (http.Set_ (http.Set_ w _ _) _ _) _ _) _ _).
  assert (H0 : http.Status w0 = None /\ http.Written w0 = ""
               /\ http.IsFlusher w0 = true
               /\ http.RespHeader w0 !! "Content-Type" = Some "text/event-stream"
               /\ http.RespHeader w0 !! "Mcp-Session-Id" = Some sessionID).
  { subst w0. simpl. repeat split; try done.
    - rewrite !lookup_insert_ne by done. by rewrite lookup_insert_eq.
    - by rewrite lookup_insert_eq. }
  destruct H0 as (Hs0 & Hw0 & Hf0 & Hct & Hsid). rewrite Hf0. simpl negb. cbv iota.
  destruct (generateEventID_spec wd) as (Hlen & Hdr & _).
  destruct (generateEventID wd) as [eventID wd1]. simpl in Hlen, Hdr.
  set (w1 := http.Write w0 _).
  destruct (Write_first w0 ("id: " ++ eventID ++ http.nl) Hs0) as (Hs1 & Hw1 & Hh1).
  fold w1 in Hs1, Hw1, Hh1.
  set (w2 := http.Write w1 _).
  destruct (Write_after_status w1 ("event: connection" ++ http.nl) 200 Hs1)
    as (Hs2 & Hw2 & Hh2). fold w2 in Hs2, Hw2, Hh2.
  set (w3 := http.Write w2 _).
  destruct (Write_after_status w2
              ((js "data: {'type':'connected','session_id':'")
                 ++ sessionID ++ (js "'}") ++ http.nl ++ http.nl) 200 Hs2)
    as (Hs3 & Hw3 & Hh3). fold w3 in Hs3, Hw3, Hh3.
  rewrite (Flush_after_status w3 200 Hs3).
  destruct (heartbeats_spec (http.TicksBeforeDone r) wd1 w3 200 Hs3)
    as (ids & Hn & Hall & Hwr & Hst & Hhd & Hd).
  split; [|split; [|split; [|split]]].
  - exists eventID, ids. split; [done|]. split; [done|]. split; [done|].
    rewrite Hwr, Hw3, Hw2, Hw1, Hw0. unfold connection_frame, sse_frame.
    change ("" ++ ?x) with x. rewrite !append_assoc. reflexivity.
  - unfold http.StatusCode. by rewrite Hst.
  - by rewrite Hhd, Hh3, Hh2, Hh1.
  - by rewrite Hhd, Hh3, Hh2, Hh1.
  - rewrite Hd, Hdr. lia.
Qed.

(** X19: an opened stream is one "connection" frame naming the session,
    followed by one "heartbeat" frame per tick seen before the request's
    context is done and nothing else; each frame has an event id of 16 hex
    characters drawn from 8 fresh random bytes; the status is 200 and the
    response names the session. *)
Theorem setupSSEStream_frames (wd : World) (r : http.Request) (sessionID : string) :
  let w' := snd (setupSSEStream wd http.NewResponseWriter r sessionID) in
  (exists id ids,
      String.length id = 16%nat
      /\ length ids = http.TicksBeforeDone r
      /\ Forall (fun id => String.length id = 16%nat) ids
      /\ http.Written w'
         = connection_frame id sessionID
             ++ concat_frames (List.map heartbeat_frame ids))
  /\ http.StatusCode w' = 200
  /\ http.RespHeader w' !! "Content-Type" = Some "text/event-stream"
  /\ http.RespHeader w' !! "Mcp-Session-Id" = Some sessionID
  /\ drawn (fst (setupSSEStream wd http.NewResponseWriter r sessionID))
     = (drawn wd + 8 * S (http.TicksBeforeDone r))%nat.
Proof. by apply setupSSEStream_spec. Qed.

(** **** Opening a stream *)

Lemma createSession_spec (tr : t) (wd : World) :
  let id := hex.EncodeToString (fst (rand.Read wd 16)) in
  fst (fst (createSession tr wd)) = id
  /\ String.length id = 32%nat
  /\ sessions (snd (fst (createSession tr wd)))
     = <[id := {| SessionID := id; CreatedAt := clock wd (readings wd);
                  LastSeen := clock wd (S (readings wd)); Active := true |}]>
         (sessions tr)
  /\ mcpServer (snd (fst (createSession tr wd))) = mcpServer tr
  /\ config (snd (fst (createSession tr wd))) = config tr
  /\ readings (snd (createSession tr wd)) = S (S (readings wd))
  /\ clock (snd (createSession tr wd)) = clock wd.
Proof.
  intros id. subst id. unfold createSession, rand.Read, time.Now.
  cbn [fst snd clock readings entropy drawn sessions with_sessions mcpServer config].
  split; [done|]. split; [|done].
  by rewrite EncodeToString_length, length_map, length_seq.
Qed.

(** X20: a GET that passes the header checks without naming a session
    opens one: its id is the hex encoding of 16 fresh random bytes (32
    characters), it is stored active with [CreatedAt] and [LastSeen] the
    next two clock readings, and the 200 response names it in its
    Mcp-Session-Id header. *)
Theorem GET_opens_session (tr : t) (wd : World) (r : http.Request) :
  http.Method r = "GET" ->
  http.Get (http.ReqHeader r) "MCP-Protocol-Version" <> "" ->
  http.Get (http.ReqHeader r) "Mcp-Session-Id" = "" ->
  Contains (http.Get (http.ReqHeader r) "Accept") "text/event-stream" = true ->
  let id := hex.EncodeToString (fst (rand.Read wd 16)) in
  let tr' := fst (fst (serveMCP tr wd r)) in
  let w := snd (serveMCP tr wd r) in
  String.length id = 32%nat
  /\ sessions tr'
     = <[id := {| SessionID := id; CreatedAt := clock wd (readings wd);
                  LastSeen := clock wd (S (readings wd)); Active := true |}]>
         (sessions tr)
  /\ http.RespHeader w !! "Mcp-Session-Id" = Some id
  /\ http.StatusCode w = 200.
Proof.
  intros Hm Hv Hsid Hacc id tr' w. subst tr' w.
  rewrite serveMCP_cases, Hm. rewrite andb_false_r.
  rewrite (handleMCP_unfold _ _ _ _ Hv), Hsid. simpl String.eqb. cbv iota.
  unfold method_switch. rewrite Hm. simpl String.eqb. cbv iota.
  unfold handleGET. rewrite Hacc. simpl negb. simpl String.eqb. cbv iota.
  destruct (createSession_spec tr wd) as (Hid & Hlen & Hst & _).
  destruct (createSession tr wd) as [[id' tr1] wd1]. cbn [fst snd] in Hid, Hst.
  fold id in Hid, Hlen, Hst. subst id'.
  destruct (cors_writer_fresh tr r) as (Hs0 & Hw0 & Hf0).
  destruct (setupSSEStream_spec wd1 (cors_writer tr r) r id Hs0 Hw0 Hf0)
    as (_ & Hcode & _ & Hhdr & _).
  destruct (setupSSEStream wd1 (cors_writer tr r) r id) as [wd2 w2].
  cbn [fst snd] in *. by repeat split.
Qed.

Lemma GET_opens_session_witness :
  size (sessions
          (fst (fst (serveMCP math_transport quiet_world
                       (request "GET" [("MCP-Protocol-Version", "2024-11-05");
                                       ("Accept", "text/event-stream")] "")))))
  = 1%nat.
Proof.
  destruct (GET_opens_session math_transport quiet_world
              (request "GET" [("MCP-Protocol-Version", "2024-11-05");
                              ("Accept", "text/event-stream")] "")
              eq_refl) as (_ & Hst & _); [discriminate|reflexivity|reflexivity|].
  rewrite Hst. by rewrite map_size_insert_None.
Defined.

Lemma handleMCP_past_gate (tr : t) (wd : World) (w : http.ResponseWriter)
  (r : http.Request) :
  http.Get (http.ReqHeader r) "MCP-Protocol-Version" <> "" ->
  let sessionID := http.Get (http.ReqHeader r) "Mcp-Session-Id" in
  sessionID = "" \/ fst (isValidSession tr wd sessionID) = true ->
  exists tr2 wd2,
    handleMCP tr wd w r = method_switch tr2 wd2 w r sessionID
    /\ (sessionID = "" -> tr2 = tr /\ wd2 = wd).
Proof.
  intros Hv sessionID Hgate. rewrite (handleMCP_unfold _ _ _ _ Hv). fold sessionID.
  destruct (String.eqb_spec sessionID "") as [He|Hne].
  - by exists tr, wd.
  - destruct Hgate as [Hg | Hg]; [done|]. rewrite Hg. by eexists _, _.
Qed.

(** X21: past the protocol-version and session checks the transport turns
    away, with a plain-text message: a GET whose Accept does not name the
    SSE media type (400), a POST whose Accept names neither media type
    (400), a POST whose body cannot be read (400) and every method other
    than POST and GET (405).  When the request names no session, the store
    and the world are then left as they were: no session is created. *)
Theorem streamable_rejections (tr : t) (wd : World) (r : http.Request) :
  reaches_handler tr r ->
  http.Get (http.ReqHeader r) "MCP-Protocol-Version" <> "" ->
  let sessionID := http.Get (http.ReqHeader r) "Mcp-Session-Id" in
  let accept := http.Get (http.ReqHeader r) "Accept" in
  sessionID = "" \/ fst (isValidSession tr wd sessionID) = true ->
  let w := snd (serveMCP tr wd r) in
  let rejected (code : Z) (msg : string) :=
    http.StatusCode w = code /\ http.Written w = msg ++ http.nl
    /\ (sessionID = "" -> fst (serveMCP tr wd r) = (tr, wd)) in
  (http.Method r = "GET" -> Contains accept "text/event-stream" = false ->
     rejected 400 "Accept header must include text/event-stream for GET requests")
  /\ (http.Method r = "POST" ->
      Contains accept "application/json" = false ->
      Contains accept "text/event-stream" = false ->
      rejected 400 "Accept header must include application/json or text/event-stream")
  /\ (http.Method r = "POST" ->
      Contains accept "application/json" || Contains accept "text/event-stream" = true ->
      http.Body r = None ->
      rejected 400 "Failed to read request body")
  /\ (http.Method r <> "POST" -> http.Method r <> "GET" ->
      rejected 405 "Method not allowed").
Proof.
  intros Hreach Hv sessionID accept Hgate w rejected. subst w rejected.
  rewrite serveMCP_cases, Hreach.
  destruct (handleMCP_past_gate tr wd (cors_writer tr r) r Hv Hgate)
    as (tr2 & wd2 & -> & Hsame). fold sessionID in Hsame |- *.
  destruct (cors_writer_fresh tr r) as (Hs0 & Hw0 & _).
  unfold method_switch, handlePOST, handleGET. fold accept.
  split; [|split; [|split]].
  - intros Hm Hacc. rewrite Hm, Hacc. simpl.
    destruct (Error_spec (cors_writer tr r)
                "Accept header must include text/event-stream for GET requests"
                400 Hs0 Hw0) as [Hc Hb].
    split; [done|]. split; [done|]. intros He. by destruct (Hsame He) as [-> ->].
  - intros Hm Hj Hsse. rewrite Hm, Hj, Hsse. simpl.
    destruct (Error_spec (cors_writer tr r)
                "Accept header must include application/json or text/event-stream"
                400 Hs0 Hw0) as [Hc Hb].
    split; [done|]. split; [done|]. intros He. by destruct (Hsame He) as [-> ->].
  - intros Hm Hacc Hbody. rewrite Hm, Hbody.
    assert (Hg : negb (Contains accept "application/json")
                 && negb (Contains accept "text/event-stream") = false)
      by (by destruct (Contains accept "application/json"),
               (Contains accept "text/event-stream")).
    rewrite Hg. simpl.
    destruct (Error_spec (cors_writer tr r) "Failed to read request body"
                400 Hs0 Hw0) as [Hc Hb].
    split; [done|]. split; [done|]. intros He. by destruct (Hsame He) as [-> ->].
  - intros Hp%String.eqb_neq Hg%String.eqb_neq.
    unfold http.MethodPost, http.MethodGet. rewrite Hp, Hg. simpl.
    destruct (Error_spec (cors_writer tr r) "Method not allowed" 405 Hs0 Hw0)
      as [Hc Hb].
    split; [done|]. split; [done|]. intros He. by destruct (Hsame He) as [-> ->].
Qed.

Lemma streamable_rejections_witness :
  fst (serveMCP math_transport quiet_world
         (request "GET" [("MCP-Protocol-Version", "2024-11-05");
                         ("Accept", "application/json")] ""))
  = (math_transport, quiet_world)
  /\ http.StatusCode
       (snd (serveMCP math_transport quiet_world
               (request "DELETE" [("MCP-Protocol-Version", "2024-11-05")] "")))
     = 405.
Proof.
  split.
  - destruct (streamable_rejections math_transport quiet_world
                (request "GET" [("MCP-Protocol-Version", "2024-11-05");
                                ("Accept", "application/json")] "") eq_refl)
      as (Hget & _); [discriminate|by left|].
    destruct (Hget eq_refl eq_refl) as (_ & _ & Hst). by apply Hst.
  - destruct (streamable_rejections math_transport quiet_world
                (request "DELETE" [("MCP-Protocol-Version", "2024-11-05")] "") eq_refl)
      as (_ & _ & _ & Hother); [discriminate|by left|].
    destruct Hother as (Hc & _); [discriminate|discriminate|exact Hc].
Defined.

(** **** The session store *)

Lemma updateSessionActivity_keyed (tr : t) (wd : World) (sessionID : string) :
  store_keyed_by_id tr ->
  store_keyed_by_id (fst (updateSessionActivity tr wd sessionID)).
Proof.
  intros Hk. unfold updateSessionActivity.
  destruct (sessions tr !! sessionID) as [session|] eqn:Hs; [|done].
  intros id s'. simpl. destruct (decide (id = sessionID)) as [->|Hne].
  - rewrite lookup_insert_eq. intros [= <-]. simpl. by apply Hk.
  - rewrite lookup_insert_ne by done. apply Hk.
Qed.

Lemma createSession_keyed (tr : t) (wd : World) :
  store_keyed_by_id tr -> store_keyed_by_id (snd (fst (createSession tr wd))).
Proof.
  intros Hk id s'. destruct (createSession_spec tr wd) as (_ & _ & -> & _).
  destruct (decide (id = hex.EncodeToString (fst (rand.Read wd 16)))) as [->|Hne].
  - rewrite lookup_insert_eq. by intros [= <-].
  - rewrite lookup_insert_ne by done. apply Hk.
Qed.

Lemma method_switch_keyed (tr : t) (wd : World) (w : http.ResponseWriter)
  (r : http.Request) (sessionID : string) :
  store_keyed_by_id tr ->
  store_keyed_by_id (fst (fst (method_switch tr wd w r sessionID))).
Proof.
  intros Hk. unfold method_switch.
  destruct (String.eqb (http.Method r) http.MethodPost); [done|].
  destruct (String.eqb (http.Method r) http.MethodGet); [|done].
  unfold handleGET. destruct (negb (Contains _ _)); [done|].
  destruct (String.eqb sessionID "").
  - pose proof (createSession_keyed tr wd Hk) as Hc.
    destruct (createSession tr wd) as [[id tr1] wd1]. simpl in Hc.
    by destruct (setupSSEStream wd1 w r id).
  - by destruct (setupSSEStream wd w r sessionID).
Qed.

(** X22: the store keeps every session under its own id.  The invariant
    holds for a new transport and is kept by every request and by every
    wake-up of the reaper. *)
Theorem store_keyed_by_id_invariant
  (mcpServer : Server) (config : option StreamableHTTPConfig)
  (tr : t) (wd : World) (r : http.Request) (now : Z) :
  store_keyed_by_id (NewStreamableHTTPTransport mcpServer config)
  /\ (store_keyed_by_id tr ->
      store_keyed_by_id (fst (fst (serveMCP tr wd r)))
      /\ store_keyed_by_id (cleanupExpiredSessions_tick tr now)).
Proof.
  split; [by intros id s'|]. intros Hk. split.
  - rewrite serveMCP_cases.
    destruct (CORSEnabled _ && String.eqb (http.Method r) "OPTIONS"); [done|].
    destruct (String.eqb_spec (http.Get (http.ReqHeader r) "MCP-Protocol-Version") "")
      as [Hv|Hv].
    { unfold handleMCP. by rewrite Hv. }
    rewrite (handleMCP_unfold _ _ _ _ Hv).
    destruct (String.eqb _ ""); [by apply method_switch_keyed|].
    destruct (fst (isValidSession tr wd _)); [|done].
    by apply method_switch_keyed, updateSessionActivity_keyed.
  - intros id s'. unfold cleanupExpiredSessions_tick. simpl.
    rewrite map_lookup_filter_Some. intros [Hs _]. by apply Hk.
Qed.

Lemma store_keyed_by_id_invariant_witness :
  store_keyed_by_id
    (fst (fst (serveMCP (one_session 0) (world_at time.Minute) session_request))).
Proof.
  apply (store_keyed_by_id_invariant NewServer None (one_session 0)
           (world_at time.Minute) session_request 0).
  intros id s'. unfold one_session. simpl.
  intros [<- <-]%lookup_singleton_Some. reflexivity.
Defined.

(** X23: the reaper and the validity check agree.  A wake-up of the reaper
    at the instant [now] keeps an active session exactly when the validity
    check reading the clock at [now] accepts it. *)
Theorem reaper_agrees_with_validity
  (tr : t) (wd : World) (sessionID : string) (session : Session) :
  sessions tr !! sessionID = Some session ->
  Active session = true ->
  let now := clock wd (readings wd) in
  fst (isValidSession tr wd sessionID) = true
  <-> sessions (cleanupExpiredSessions_tick tr now) !! sessionID = Some session.
Proof.
  intros Hs Ha now. rewrite (isValidSession_active tr wd sessionID session Hs Ha).
  rewrite cleanupExpiredSessions_tick_keeps. fold now. simpl.
  destruct (time.Sub now (LastSeen session) >? SessionTimeout (config tr)); simpl.
  - split; [done|]. by intros [_ ?].
  - by split.
Qed.

Lemma reaper_agrees_with_validity_witness :
  sessions (cleanupExpiredSessions_tick (one_session 0) (5 * time.Minute)) !! "0a0b"
  = Some {| SessionID := "0a0b"; CreatedAt := 0; LastSeen := 0; Active := true |}.
Proof.
  apply (reaper_agrees_with_validity (one_session 0) (world_at (5 * time.Minute))
           "0a0b" _ eq_refl eq_refl).
  vm_compute. reflexivity.
Defined.

(** X24: the reaper only removes.  After a wake-up every session of the
    store is a session of the store before, unchanged; the dispatcher and
    the configuration are the same; and a second wake-up at the same
    instant removes nothing more. *)
Theorem reaper_only_removes (tr : t) (now : Z) :
  sessions (cleanupExpiredSessions_tick tr now) ⊆ sessions tr
  /\ mcpServer (cleanupExpiredSessions_tick tr now) = mcpServer tr
  /\ config (cleanupExpiredSessions_tick tr now) = config tr
  /\ cleanupExpiredSessions_tick (cleanupExpiredSessions_tick tr now) now
     = cleanupExpiredSessions_tick tr now.
Proof.
  split; [apply map_filter_subseteq|]. split; [done|]. split; [done|].
  unfold cleanupExpiredSessions_tick, with_sessions. simpl. f_equal.
  apply map_eq. intros id. apply option_eq. intros s'.
  rewrite !map_lookup_filter_Some. tauto.
Qed.

(** X25: a session is valid from its creation on: a validity check of a
    newly created session succeeds whenever the clock, at the check, is
    not more than the timeout past the session's [LastSeen] reading. *)
Theorem fresh_session_valid (tr : t) (wd : World) :
  time.minDuration <= SessionTimeout (config tr) ->
  clock wd (S (S (readings wd))) - clock wd (S (readings wd))
  <= SessionTimeout (config tr) ->
  let created := createSession tr wd in
  fst (isValidSession (snd (fst created)) (snd created) (fst (fst created))) = true.
Proof.
  intros Hmin Hle created. subst created.
  destruct (createSession_spec tr wd) as (Hid & _ & Hst & _ & Hcfg & Hrd & Hck).
  destruct (createSession tr wd) as [[id tr1] wd1]. cbn [fst snd] in *.
  unfold isValidSession. rewrite Hst, <- Hid, lookup_insert_eq. simpl.
  rewrite Hcfg, Hck, Hrd.
  unfold time.Sub.
  destruct (Z.ltb_spec (clock wd (S (S (readings wd))) - clock wd (S (readings wd)))
              time.minDuration).
  { destruct (Z.gtb_spec time.minDuration (SessionTimeout (config tr))); [lia|done]. }
  destruct (Z.gtb_spec (clock wd (S (S (readings wd))) - clock wd (S (readings wd)))
              time.maxDuration).
  { destruct (Z.gtb_spec time.maxDuration (SessionTimeout (config tr))); [lia|done]. }
  destruct (Z.gtb_spec (clock wd (S (S (readings wd))) - clock wd (S (readings wd)))
              (SessionTimeout (config tr))); [lia|done].
Qed.

Lemma fresh_session_valid_witness :
  let created := createSession math_transport (world_at 0) in
  fst (isValidSession (snd (fst created)) (snd created) (fst (fst created))) = true.
Proof.
  apply (fresh_session_valid math_transport (world_at 0)); vm_compute; discriminate.
Defined.

End StreamableHTTPMore.
